(** * FML-Logs: the [log.py] module of fixmylabdevice

  A shallow embedding of [src/log.py]: one shared logger with a console
  handler and an in-memory buffer handler, the probe for a writable log
  directory, and the two exports of the buffer (to a file, to a paste).

  Python's module globals, the logger's handler list, the filesystem and
  the paste service are one explicit state, threaded through a state and
  exception monad.  What belongs to the interpreter and the operating
  system ([logging], [os], [tempfile], [everpaste], [osname]) is modelled
  in the modules [Py], [Logging] and [OS] below; the functions of [log.py]
  follow, under the names they have in the source. *)

From Stdlib Require Import Ascii String.
From stdpp Require Import gmap strings list fin_maps.

Open Scope string_scope.

(** ** Exceptions and results *)

Module Py.

(** The exception classes that the module and its collaborators raise.
    In Python 3 [IOError] is an alias of [OSError]. *)
Inductive exn : Type :=
| BufferError
| NameError
| AttributeError
| StopIteration
| ValueError
| RuntimeError
| OSError
| PermissionError
| FileExistsError
| FileNotFoundError
| NotADirectoryError
| IsADirectoryError
| ConnectionError
| KeyboardInterrupt.

#[global] Instance exn_eq_dec : EqDecision exn.
Proof. solve_decision. Defined.

(** [isinstance(e, OSError)], which is what [except IOError] tests. *)
Definition is_OSError (e : exn) : bool :=
  match e with
  | OSError | PermissionError | FileExistsError | FileNotFoundError
  | NotADirectoryError | IsADirectoryError | ConnectionError => true
  | _ => false
  end.

Definition is_PermissionError (e : exn) : bool :=
  bool_decide (e = PermissionError).

Definition is_FileNotFoundError (e : exn) : bool :=
  bool_decide (e = FileNotFoundError).

Definition is_FileExistsError (e : exn) : bool :=
  bool_decide (e = FileExistsError).

(** [isinstance(e, Exception)]: everything but the [BaseException]-only
    classes. *)
Definition is_Exception (e : exn) : bool :=
  match e with
  | KeyboardInterrupt => false
  | _ => true
  end.

(** [str(e)], as it appears in log messages; the text of an exception is
    kept to the name of its class. *)
Definition str (e : exn) : string :=
  match e with
  | BufferError => "BufferError"
  | NameError => "NameError"
  | AttributeError => "AttributeError"
  | StopIteration => "StopIteration"
  | ValueError => "ValueError"
  | RuntimeError => "RuntimeError"
  | OSError => "OSError"
  | PermissionError => "PermissionError"
  | FileExistsError => "FileExistsError"
  | FileNotFoundError => "FileNotFoundError"
  | NotADirectoryError => "NotADirectoryError"
  | IsADirectoryError => "IsADirectoryError"
  | ConnectionError => "ConnectionError"
  | KeyboardInterrupt => "KeyboardInterrupt"
  end.

(** The outcome of a call: a value, or a raised exception. *)
Inductive res (A : Type) : Type :=
| Ok (a : A)
| Raise (e : exn).
Arguments Ok {A} a.
Arguments Raise {A} e.

Definition is_Ok {A} (r : res A) : bool :=
  match r with Ok _ => true | Raise _ => false end.

End Py.
Export Py.

(** ** The [logging] library *)

Module Logging.

(** Severities, with the numbers that [logging] gives them. *)
Inductive level : Type := DEBUG | INFO | WARNING | ERROR.

#[global] Instance level_eq_dec : EqDecision level.
Proof. solve_decision. Defined.

Definition levelno (l : level) : nat :=
  match l with DEBUG => 10 | INFO => 20 | WARNING => 30 | ERROR => 40 end.

Definition levelname (l : level) : string :=
  match l with
  | DEBUG => "DEBUG" | INFO => "INFO" | WARNING => "WARNING" | ERROR => "ERROR"
  end.

(** A [logging.Formatter] is its format string, kept as the sequence of
    its literal pieces and [%(...)s] fields. *)
Inductive field : Type :=
| Lit (s : string)
| Asctime
| Levelname
| Message.

#[global] Instance field_eq_dec : EqDecision field.
Proof. solve_decision. Defined.

Definition Formatter : Type := list field.

Record LogRecord : Type := {
  rlevel : level;
  rmsg : string;
  rasctime : string;
  (** [exc_info], set by [Logger.exception] *)
  rexc : option exn
}.

Definition nl : string := String (ascii_of_nat 10) EmptyString.

Definition field_text (r : LogRecord) (f : field) : string :=
  match f with
  | Lit s => s
  | Asctime => rasctime r
  | Levelname => levelname (rlevel r)
  | Message => rmsg r
  end.

(** [Formatter.formatException], the traceback text; only its last line
    is kept. *)
Definition formatException (e : exn) : string :=
  "Traceback (most recent call last):" +:+ nl +:+ Py.str e.

(** [s[-1:] == "\n"] *)
Fixpoint ends_with_nl (s : string) : bool :=
  match s with
  | EmptyString => false
  | String c EmptyString => bool_decide (c = ascii_of_nat 10)
  | String _ s' => ends_with_nl s'
  end.

(** [Formatter.format]: the fields in order; when the record carries an
    exception, a newline unless the text ends in one, and the traceback. *)
Definition format (fmt : Formatter) (r : LogRecord) : string :=
  let s := foldr (fun f acc => field_text r f +:+ acc) "" fmt in
  match rexc r with
  | None => s
  | Some e =>
      let s := if ends_with_nl s then s else s +:+ nl in
      s +:+ formatException e
  end.

(** Where a [StreamHandler] writes: [sys.stderr], or an [io.StringIO]
    that the handler owns, with the text written so far. *)
Inductive stream : Type :=
| Stderr
| StringIO (value : string).

#[global] Instance stream_eq_dec : EqDecision stream.
Proof. solve_decision. Defined.

(** A [logging.StreamHandler]; the module creates no other kind. *)
Record Handler : Type := {
  name : string;
  formatter : Formatter;
  hlevel : level;
  hstream : stream
}.

#[global] Instance Handler_eq_dec : EqDecision Handler.
Proof. solve_decision. Defined.

Definition setFormatter (fmt : Formatter) (h : Handler) : Handler :=
  {| name := name h; formatter := fmt; hlevel := hlevel h; hstream := hstream h |}.

Definition setLevel (l : level) (h : Handler) : Handler :=
  {| name := name h; formatter := formatter h; hlevel := l; hstream := hstream h |}.

(** [Handler.handle] behind the level test of [Logger.callHandlers]: a
    record at or above the handler's level is formatted and written,
    followed by the terminator, to the handler's stream.  [err] is the
    text on [sys.stderr]. *)
Definition handle (r : LogRecord) (h : Handler) (err : string) : Handler * string :=
  if Nat.leb (levelno (hlevel h)) (levelno (rlevel r)) then
    let text := format (formatter h) r +:+ nl in
    match hstream h with
    | Stderr => (h, err +:+ text)
    | StringIO v =>
        ({| name := name h; formatter := formatter h; hlevel := hlevel h;
            hstream := StringIO (v +:+ text) |}, err)
    end
  else (h, err).

(** [Logger.callHandlers] over the logger's own handlers, in order. *)
Fixpoint callHandlers (r : LogRecord) (hs : list Handler) (err : string)
  : list Handler * string :=
  match hs with
  | [] => ([], err)
  | h :: hs' =>
      let '(h1, err1) := handle r h err in
      let '(hs1, err2) := callHandlers r hs' err1 in
      (h1 :: hs1, err2)
  end.

End Logging.
Export Logging.

(** ** The operating system: paths, files, environment *)

Module OS.

(** A filesystem entry.  [writable] of a directory: entries may be created
    and removed in it; of a file: it may be opened for writing. *)
Inductive node : Type :=
| Dir (writable : bool)
| File (writable : bool) (data : string).

#[global] Instance node_eq_dec : EqDecision node.
Proof. solve_decision. Defined.

Definition is_slash (c : ascii) : bool := bool_decide (c = "/"%char).

(** The text up to and including the last ["/"], and the text after it;
    [None] when there is no ["/"]. *)
Fixpoint rsplit (s : string) : option (string * string) :=
  match s with
  | EmptyString => None
  | String c s' =>
      match rsplit s' with
      | Some (h, t) => Some (String c h, t)
      | None => if is_slash c then Some ("/", s') else None
      end
  end.

Fixpoint all_slashes (s : string) : bool :=
  match s with
  | EmptyString => true
  | String c s' => is_slash c && all_slashes s'
  end.

(** [s.rstrip("/")] *)
Fixpoint rstrip_slash (s : string) : string :=
  match s with
  | EmptyString => EmptyString
  | String c s' =>
      match rstrip_slash s' with
      | EmptyString => if is_slash c then EmptyString else String c EmptyString
      | r => String c r
      end
  end.

Definition nonempty (s : string) : bool :=
  match s with EmptyString => false | String _ _ => true end.

(** [posixpath.split] *)
Definition split (p : string) : string * string :=
  let '(head, tail) := default ("", p) (rsplit p) in
  if nonempty head && negb (all_slashes head)
  then (rstrip_slash head, tail) else (head, tail).

Definition dirname (p : string) : string := fst (split p).

(** [os.path.join(dir, name)] for a [dir] without a trailing slash, which
    is also what the f-string [f"{logdir}/fmld.testfile"] builds. *)
Definition join (dir name : string) : string := dir +:+ "/" +:+ name.

(** [os.path.exists], [os.path.isdir], [os.path.isfile] *)
Definition exists_ (fs : gmap string node) (p : string) : bool :=
  match fs !! p with Some _ => true | None => false end.

Definition isdir (fs : gmap string node) (p : string) : bool :=
  match fs !! p with Some (Dir _) => true | _ => false end.

Definition isfile (fs : gmap string node) (p : string) : bool :=
  match fs !! p with Some (File _ _) => true | _ => false end.

(** [os.access(p, os.W_OK)] *)
Definition access_w (fs : gmap string node) (p : string) : bool :=
  match fs !! p with
  | Some (Dir w) => w
  | Some (File w _) => w
  | None => false
  end.

(** What the kernel checks on the parent directory before it adds or
    removes the entry [p]. *)
Definition parent_check (fs : gmap string node) (p : string) : res unit :=
  match fs !! dirname p with
  | None => Raise FileNotFoundError
  | Some (File _ _) => Raise NotADirectoryError
  | Some (Dir false) => Raise PermissionError
  | Some (Dir true) => Ok ()
  end.

(** [os.mkdir(p)] *)
Definition mkdir (fs : gmap string node) (p : string) : res (gmap string node) :=
  match fs !! p with
  | Some _ => Raise FileExistsError
  | None =>
      match parent_check fs p with
      | Ok _ => Ok (<[p := Dir true]> fs)
      | Raise e => Raise e
      end
  end.

(** The first lines of [os.makedirs]: [head, tail = path.split(name)],
    and once more on [head] when [tail] is empty. *)
Definition makedirs_split (name : string) : string * string :=
  let '(head, tail) := split name in
  if nonempty tail then (head, tail) else split head.

(** [os.makedirs(name)] with [exist_ok=False]: create the missing parents
    first (swallowing a [FileExistsError] from that), then the leaf.  The
    recursion is on the parent, a shorter path; [fuel] bounds its depth and
    running out of it is Python's [RecursionError], a [RuntimeError]. *)
Fixpoint makedirs_rec (fuel : nat) (fs : gmap string node) (name : string)
  : res (gmap string node) :=
  let '(head, tail) := makedirs_split name in
  if nonempty head && nonempty tail && negb (exists_ fs head) then
    match fuel with
    | O => Raise RuntimeError
    | S fuel' =>
        match makedirs_rec fuel' fs head with
        | Ok fs' =>
            if bool_decide (tail = ".") then Ok fs' else mkdir fs' name
        | Raise e =>
            if is_FileExistsError e then
              if bool_decide (tail = ".") then Ok fs else mkdir fs name
            else Raise e
        end
    end
  else mkdir fs name.

(** The recursion depth is at most the length of the path, so this much
    fuel is never used up ([makedirs_fuel] below). *)
Definition makedirs (fs : gmap string node) (name : string)
  : res (gmap string node) :=
  makedirs_rec (String.length name) fs name.

(** [open(p, "w")]: truncate the file, or create it. *)
Definition open_w (fs : gmap string node) (p : string) : res (gmap string node) :=
  match fs !! p with
  | Some (Dir _) => Raise IsADirectoryError
  | Some (File true _) => Ok (<[p := File true ""]> fs)
  | Some (File false _) => Raise PermissionError
  | None =>
      match parent_check fs p with
      | Ok _ => Ok (<[p := File true ""]> fs)
      | Raise e => Raise e
      end
  end.

(** [f.write(data)] and the flush at the end of the [with] block, on the
    file opened at [p]: fails with [OSError] (ENOSPC) when the disk is full
    and there is something to write. *)
Definition write (disk_full : bool) (fs : gmap string node) (p data : string)
  : res (gmap string node) :=
  if disk_full && nonempty data then Raise OSError
  else
    match fs !! p with
    | Some (File w _) => Ok (<[p := File w data]> fs)
    | _ => Raise OSError
    end.

(** [os.remove(p)] *)
Definition remove (fs : gmap string node) (p : string) : res (gmap string node) :=
  match fs !! p with
  | None => Raise FileNotFoundError
  | Some (Dir _) => Raise IsADirectoryError
  | Some (File _ _) =>
      match parent_check fs p with
      | Ok _ => Ok (delete p fs)
      | Raise e => Raise e
      end
  end.

(** [os.open(p, O_RDWR | O_CREAT | O_EXCL)], the call of [mkstemp]. *)
Definition open_excl (fs : gmap string node) (p : string) : res (gmap string node) :=
  match fs !! p with
  | Some _ => Raise FileExistsError
  | None =>
      match parent_check fs p with
      | Ok _ => Ok (<[p := File true ""]> fs)
      | Raise e => Raise e
      end
  end.

(** [with open(p, "w") as f: f.write(data)] as one step. *)
Definition write_file (disk_full : bool) (fs : gmap string node) (p data : string)
  : res (gmap string node) :=
  match open_w fs p with
  | Ok fs' => write disk_full fs' p data
  | Raise e => Raise e
  end.

(** The content of the file at [p], if it is one. *)
Definition read (fs : gmap string node) (p : string) : option string :=
  match fs !! p with
  | Some (File _ data) => Some data
  | _ => None
  end.

(** The file operations issued, oldest first. *)
Inductive syscall : Type :=
| SysMkdirs (p : string)
| SysOpenW (p : string)
| SysWrite (p : string)
| SysRemove (p : string)
| SysOpenExcl (p : string).

#[global] Instance syscall_eq_dec : EqDecision syscall.
Proof. solve_decision. Defined.

Definition syscall_path (c : syscall) : string :=
  match c with
  | SysMkdirs p | SysOpenW p | SysWrite p | SysRemove p | SysOpenExcl p => p
  end.

(** [tempfile.gettempdir()]: the first of TMPDIR, TEMP and TMP that is set
    to a non-empty value in the environment, and the platform's own temp
    directory otherwise.  (The library also probes each candidate for
    usability and caches its answer; the platform is taken to have a usable
    temp directory.) *)
Definition gettempdir (environ : gmap string string) (default_tempdir : string)
  : string :=
  let from_env :=
    omap (fun envname =>
            match environ !! envname with
            | Some dirname => if nonempty dirname then Some dirname else None
            | None => None
            end)
         ["TMPDIR"; "TEMP"; "TMP"] in
  default default_tempdir (head from_env).

End OS.

(** ** The process: module globals, logger, filesystem, paste service *)

(** What the module reads from its surroundings and never changes: the
    answers of [osname]; the platform's temp directory; [platform.node()];
    the clock, as [datetime.now().strftime("%Y%m%d.%H%M%S")] and as the
    [%(asctime)s] of a record made now; whether the disk is full; and the
    paste service behind [everpaste.EverPaste(app_id, app_token)
    .create(content, permanent, color)], as a function of the CA bundle in
    use. *)
Record Platform : Type := {
  is_linux : bool;
  is_mac : bool;
  is_windows : bool;
  default_tempdir : string;
  node : string;
  strftime_now : string;
  asctime_now : string;
  disk_full : bool;
  everpaste_create :
    string -> string -> string -> string -> bool -> bool -> res string
}.

(** A call that reached the paste service. *)
Record paste_call : Type := {
  pc_bundle : string;
  pc_content : string;
  pc_permanent : bool;
  pc_color : bool
}.

(** A reference to a logger.  [logging.getLogger(name)] keeps one object
    per name, so the name identifies the instance. *)
Definition LoggerRef : Type := string.

Record State : Type := {
  (** the global [_LOGGER] and the handler list of the logger it names *)
  _LOGGER : LoggerRef;
  handlers : list Handler;
  _LOG_SETUP : bool;
  _CONSOLE_LEVEL : level;
  _CONSOLE_FORMAT : Formatter;
  (** text written to [sys.stderr] *)
  stderr : string;
  fs : gmap string OS.node;
  syscalls : list OS.syscall;
  (** [os.environ] *)
  environ : gmap string string;
  (** [everpaste._CA_BUNDLE] *)
  _CA_BUNDLE : string;
  paste_calls : list paste_call;
  platform : Platform
}.

Definition set_handlers (hs : list Handler) (s : State) : State :=
  {| _LOGGER := _LOGGER s; handlers := hs; _LOG_SETUP := _LOG_SETUP s;
     _CONSOLE_LEVEL := _CONSOLE_LEVEL s; _CONSOLE_FORMAT := _CONSOLE_FORMAT s;
     stderr := stderr s; fs := fs s; syscalls := syscalls s;
     environ := environ s; _CA_BUNDLE := _CA_BUNDLE s;
     paste_calls := paste_calls s; platform := platform s |}.

Definition set_LOG_SETUP (b : bool) (s : State) : State :=
  {| _LOGGER := _LOGGER s; handlers := handlers s; _LOG_SETUP := b;
     _CONSOLE_LEVEL := _CONSOLE_LEVEL s; _CONSOLE_FORMAT := _CONSOLE_FORMAT s;
     stderr := stderr s; fs := fs s; syscalls := syscalls s;
     environ := environ s; _CA_BUNDLE := _CA_BUNDLE s;
     paste_calls := paste_calls s; platform := platform s |}.

Definition set_CONSOLE (l : level) (f : Formatter) (s : State) : State :=
  {| _LOGGER := _LOGGER s; handlers := handlers s; _LOG_SETUP := _LOG_SETUP s;
     _CONSOLE_LEVEL := l; _CONSOLE_FORMAT := f;
     stderr := stderr s; fs := fs s; syscalls := syscalls s;
     environ := environ s; _CA_BUNDLE := _CA_BUNDLE s;
     paste_calls := paste_calls s; platform := platform s |}.

Definition set_stderr (err : string) (s : State) : State :=
  {| _LOGGER := _LOGGER s; handlers := handlers s; _LOG_SETUP := _LOG_SETUP s;
     _CONSOLE_LEVEL := _CONSOLE_LEVEL s; _CONSOLE_FORMAT := _CONSOLE_FORMAT s;
     stderr := err; fs := fs s; syscalls := syscalls s;
     environ := environ s; _CA_BUNDLE := _CA_BUNDLE s;
     paste_calls := paste_calls s; platform := platform s |}.

Definition set_fs (m : gmap string OS.node) (s : State) : State :=
  {| _LOGGER := _LOGGER s; handlers := handlers s; _LOG_SETUP := _LOG_SETUP s;
     _CONSOLE_LEVEL := _CONSOLE_LEVEL s; _CONSOLE_FORMAT := _CONSOLE_FORMAT s;
     stderr := stderr s; fs := m; syscalls := syscalls s;
     environ := environ s; _CA_BUNDLE := _CA_BUNDLE s;
     paste_calls := paste_calls s; platform := platform s |}.

Definition push_syscall (c : OS.syscall) (s : State) : State :=
  {| _LOGGER := _LOGGER s; handlers := handlers s; _LOG_SETUP := _LOG_SETUP s;
     _CONSOLE_LEVEL := _CONSOLE_LEVEL s; _CONSOLE_FORMAT := _CONSOLE_FORMAT s;
     stderr := stderr s; fs := fs s; syscalls := (syscalls s ++ [c])%list;
     environ := environ s; _CA_BUNDLE := _CA_BUNDLE s;
     paste_calls := paste_calls s; platform := platform s |}.

Definition set_environ (env : gmap string string) (s : State) : State :=
  {| _LOGGER := _LOGGER s; handlers := handlers s; _LOG_SETUP := _LOG_SETUP s;
     _CONSOLE_LEVEL := _CONSOLE_LEVEL s; _CONSOLE_FORMAT := _CONSOLE_FORMAT s;
     stderr := stderr s; fs := fs s; syscalls := syscalls s;
     environ := env; _CA_BUNDLE := _CA_BUNDLE s;
     paste_calls := paste_calls s; platform := platform s |}.

Definition set_CA_BUNDLE (b : string) (s : State) : State :=
  {| _LOGGER := _LOGGER s; handlers := handlers s; _LOG_SETUP := _LOG_SETUP s;
     _CONSOLE_LEVEL := _CONSOLE_LEVEL s; _CONSOLE_FORMAT := _CONSOLE_FORMAT s;
     stderr := stderr s; fs := fs s; syscalls := syscalls s;
     environ := environ s; _CA_BUNDLE := b;
     paste_calls := paste_calls s; platform := platform s |}.

Definition push_paste_call (c : paste_call) (s : State) : State :=
  {| _LOGGER := _LOGGER s; handlers := handlers s; _LOG_SETUP := _LOG_SETUP s;
     _CONSOLE_LEVEL := _CONSOLE_LEVEL s; _CONSOLE_FORMAT := _CONSOLE_FORMAT s;
     stderr := stderr s; fs := fs s; syscalls := syscalls s;
     environ := environ s; _CA_BUNDLE := _CA_BUNDLE s;
     paste_calls := (paste_calls s ++ [c])%list; platform := platform s |}.

(** *** The monad of module code: state, and exceptions that keep it *)

Definition M (A : Type) : Type := State -> res A * State.

#[global] Instance M_ret : MRet M := fun A a s => (Ok a, s).

#[global] Instance M_bind : MBind M := fun A B f m s =>
  match m s with
  | (Ok a, s') => f a s'
  | (Raise e, s') => (Raise e, s')
  end.

Definition raise {A} (e : exn) : M A := fun s => (Raise e, s).

Definition gets {A} (f : State -> A) : M A := fun s => (Ok (f s), s).

Definition modify (f : State -> State) : M unit := fun s => (Ok (), f s).

(** [try: body  except <catches> as e: handler e] *)
Definition try_except {A} (body : M A) (catches : exn -> bool)
    (handler : exn -> M A) : M A := fun s =>
  match body s with
  | (Ok a, s') => (Ok a, s')
  | (Raise e, s') => if catches e then handler e s' else (Raise e, s')
  end.

(** [try: body  except <catches>: handler  else: orelse] *)
Definition try_except_else {A B} (body : M A) (catches : exn -> bool)
    (handler : exn -> M B) (orelse : A -> M B) : M B := fun s =>
  match body s with
  | (Ok a, s') => orelse a s'
  | (Raise e, s') => if catches e then handler e s' else (Raise e, s')
  end.

(** Lift a filesystem operation, recording the call. *)
Definition sys (c : OS.syscall)
    (op : gmap string OS.node -> res (gmap string OS.node)) : M unit := fun s =>
  let s1 := push_syscall c s in
  match op (fs s1) with
  | Ok m => (Ok (), set_fs m s1)
  | Raise e => (Raise e, s1)
  end.

Definition os_makedirs (p : string) : M unit :=
  sys (OS.SysMkdirs p) (fun m => OS.makedirs m p).

Definition os_remove (p : string) : M unit :=
  sys (OS.SysRemove p) (fun m => OS.remove m p).

Definition os_open_excl (p : string) : M unit :=
  sys (OS.SysOpenExcl p) (fun m => OS.open_excl m p).

Definition open_w (p : string) : M unit :=
  sys (OS.SysOpenW p) (fun m => OS.open_w m p).

Definition file_write (p data : string) : M unit := fun s =>
  sys (OS.SysWrite p) (fun m => OS.write (disk_full (platform s)) m p data) s.

(** ** [log.py] *)

(** [_LOGGER.setLevel(logging.DEBUG)] *)
Definition _LOGGER_level : level := DEBUG.

(** User facing message format, message only *)
Definition _FORMATTER_USER : Formatter := [Message].

(** Debug message format, ["%(asctime)s - %(levelname)s - %(message)s"] *)
Definition _FORMATTER_DEBUG : Formatter :=
  [Asctime; Lit " - "; Levelname; Lit " - "; Message].

Definition _APP_ID : string := "2647891982183725".
Definition _APP_TOKEN : string := "AeP-kpjEgo3FCGwQ2b0".

(** The module-level [if osname.is_linux() or osname.is_mac(): ... elif
    osname.is_windows(): ...]; on any other platform the name [_LOG_DIR]
    is never bound. *)
Definition _LOG_DIR (pl : Platform) : option string :=
  if is_linux pl || is_mac pl then Some "/var/tmp"
  else if is_windows pl then Some "/var/log"
  else None.

(** The module right after import. *)
Definition initial (pl : Platform) (files : gmap string OS.node)
    (env : gmap string string) (bundle : string) : State :=
  {| _LOGGER := "fixmylabdevice"; handlers := []; _LOG_SETUP := false;
     _CONSOLE_LEVEL := INFO; _CONSOLE_FORMAT := _FORMATTER_USER;
     stderr := ""; fs := files; syscalls := []; environ := env;
     _CA_BUNDLE := bundle; paste_calls := []; platform := pl |}.

(** [Logger.addHandler]: the handler objects the module passes are fresh,
    so the membership test of the library never skips the append. *)
Definition addHandler (LOG : LoggerRef) (h : Handler) : M unit :=
  modify (fun s => set_handlers (handlers s ++ [h])%list s).

(** [Logger.debug], [.info], [.warning], [.error], [.exception]: build the
    record when the logger's level admits it and pass it to the logger's
    handlers.  (Handlers that another module may have put on the root
    logger are outside the model.) *)
Definition Logger_log (LOG : LoggerRef) (lvl : level) (msg : string)
    (exc : option exn) : M unit := fun s =>
  if Nat.leb (levelno _LOGGER_level) (levelno lvl) then
    let r := {| rlevel := lvl; rmsg := msg;
                rasctime := asctime_now (platform s); rexc := exc |} in
    let '(hs, err) := callHandlers r (handlers s) (stderr s) in
    (Ok (), set_stderr err (set_handlers hs s))
  else (Ok (), s).

Definition Logger_debug (LOG : LoggerRef) (msg : string) : M unit :=
  Logger_log LOG DEBUG msg None.
Definition Logger_info (LOG : LoggerRef) (msg : string) : M unit :=
  Logger_log LOG INFO msg None.
Definition Logger_warning (LOG : LoggerRef) (msg : string) : M unit :=
  Logger_log LOG WARNING msg None.
Definition Logger_error (LOG : LoggerRef) (msg : string) : M unit :=
  Logger_log LOG ERROR msg None.
Definition Logger_exception (LOG : LoggerRef) (e : exn) : M unit :=
  Logger_log LOG ERROR (Py.str e) (Some e).

(** Setup console handler.  [logging.StreamHandler()] writes to
    [sys.stderr]; the format and level it starts with are replaced at
    once. *)
Definition setup_console_handler : M Handler :=
  let handler := {| name := "console"; formatter := []; hlevel := DEBUG;
                    hstream := Stderr |} in
  fmt ← gets _CONSOLE_FORMAT;
  let handler := setFormatter fmt handler in
  lvl ← gets _CONSOLE_LEVEL;
  let handler := setLevel lvl handler in
  mret handler.

(** Setup buffer handler *)
Definition setup_buffer_handler : M Handler :=
  let handler := {| name := "buffer"; formatter := []; hlevel := DEBUG;
                    hstream := StringIO "" |} in
  let handler := setFormatter _FORMATTER_DEBUG handler in
  let handler := setLevel DEBUG handler in
  mret handler.

(** Setup logger or return logger if already setup *)
Definition get_logger : M LoggerRef :=
  setup ← gets _LOG_SETUP;
  (if negb setup then
     LOG ← gets _LOGGER;
     h ← setup_console_handler;
     addHandler LOG h;;
     h ← setup_buffer_handler;
     addHandler LOG h;;
     modify (set_LOG_SETUP true)
   else mret ());;
  gets _LOGGER.

(** The loop of [get_buffer_contents] over the handlers: the first one
    named ["buffer"] answers with [handler.stream.getvalue()], which only
    a [StringIO] has. *)
Fixpoint find_buffer (hs : list Handler) : res string :=
  match hs with
  | [] => Raise BufferError
  | handler :: hs' =>
      if String.eqb (name handler) "buffer" then
        match hstream handler with
        | StringIO contents => Ok contents
        | Stderr => Raise AttributeError
        end
      else find_buffer hs'
  end.

(** Return contents of buffer log *)
Definition get_buffer_contents : M string :=
  LOG ← get_logger;
  hs ← gets handlers;
  match find_buffer hs with
  | Ok contents => mret contents
  | Raise e => raise e
  end.

(** Helper function to set level and formatter of console log when logging
    is already setup *)
Definition _set_console_handler (lvl : level) (fmt : Formatter) : M unit :=
  setup ← gets _LOG_SETUP;
  if setup : bool then
    LOG ← get_logger;
    modify (fun s =>
      set_handlers
        (map (fun handler =>
                if String.eqb (name handler) "console"
                then setFormatter fmt (setLevel lvl handler)
                else handler)
             (handlers s)) s)
  else mret ().

(** Set debug level and formatter for console logging *)
Definition enable_debug : M unit :=
  modify (set_CONSOLE DEBUG _FORMATTER_DEBUG);;
  lvl ← gets _CONSOLE_LEVEL;
  fmt ← gets _CONSOLE_FORMAT;
  _set_console_handler lvl fmt.

(** Set info level and formatter for console logging *)
Definition disable_debug : M unit :=
  modify (set_CONSOLE INFO _FORMATTER_USER);;
  lvl ← gets _CONSOLE_LEVEL;
  fmt ← gets _CONSOLE_FORMAT;
  _set_console_handler lvl fmt.

(** Get path of OS specific system temp dir: TMPDIR, TEMP and TMP are
    popped from the environment, [tempfile.gettempdir()] is asked, and the
    popped pairs are put back. *)
Definition get_tempdir : M string :=
  env ← gets environ;
  let keys := ["TMPDIR"; "TEMP"; "TMP"] in
  let environ_bak : gmap string string :=
    list_to_map (omap (fun k => (fun v => (k, v)) <$> env !! k) keys) in
  modify (set_environ (foldr delete env keys));;
  tempdir ← gets (fun s => OS.gettempdir (environ s) (default_tempdir (platform s)));
  modify (fun s => set_environ (environ_bak ∪ environ s) s);;
  mret tempdir.

Definition write_testfile (testfile_path : string) : M bool :=
  LOG ← get_logger;
  try_except
    (open_w testfile_path;;
     file_write testfile_path "Test writing to file";;
     try_except (os_remove testfile_path) is_FileNotFoundError
       (fun _ => mret ());;
     mret true)
    is_OSError
    (fun _ =>
       Logger_debug LOG ("Failed to writing " +:+ testfile_path);;
       mret false).

(** Get path to logdir, create dir if it does not exist *)
Definition get_logdir : M string :=
  LOG ← get_logger;
  syslogdir ← (fun s => match _LOG_DIR (platform s) with
                        | Some d => (Ok d, s)
                        | None => (Raise NameError, s)
                        end);
  let logdir := syslogdir in
  is_dir ← gets (fun s => OS.isdir (fs s) logdir);
  use_tempdir ←
    (if negb is_dir then
       Logger_debug LOG ("Log directory " +:+ logdir +:+ " is not directory");;
       exists_ ← gets (fun s => OS.exists_ (fs s) logdir);
       if exists_ : bool then
         Logger_error LOG
           ("Log directory " +:+ logdir +:+ " exists and is not directory");;
         mret true
       else
         Logger_debug LOG
           ("Log directory " +:+ logdir +:+ " does not exist. Creating it");;
         try_except_else (os_makedirs logdir) is_PermissionError
           (fun _ =>
              Logger_info LOG
                ("Log directory " +:+ logdir +:+
                 " does not exist. Insufficient permissions to create it");;
              mret true)
           (fun _ =>
              Logger_warning LOG
                ("Please verify permissions of " +:+ logdir +:+ " are correct");;
              mret false)
     else mret false);
  (* test if we can write file to logdir *)
  let testfile := logdir +:+ "/fmld.testfile" in
  fallback ← (if use_tempdir : bool then mret true
              else ok ← write_testfile testfile; mret (negb ok));
  if fallback : bool then
    logdir ← get_tempdir;
    Logger_debug LOG ("Logging to temporary log directory " +:+ logdir);;
    ok ← write_testfile testfile;
    (if negb ok then
       Logger_error LOG
         "Failed to write log file: Failed to write to {syslogdir} and {logdir}"
     else mret ());;
    mret logdir
  else mret logdir.

(** [tempfile.TMP_MAX] *)
Definition TMP_MAX : N := 10000.

(** [tempfile._mkstemp_inner]: for each of at most [TMP_MAX] rounds take
    the next candidate name and try to create the file exclusively.  A name
    that is taken moves on to the next candidate; [next(names)] on an
    exhausted iterator raises [StopIteration]. *)
Fixpoint _mkstemp_inner (seq : N) (names : list string) (dir pre suf : string)
  : M string :=
  if (TMP_MAX <=? seq)%N then raise FileExistsError
  else
    match names with
    | [] => raise StopIteration
    | name :: names' =>
        let file := OS.join dir (pre +:+ name +:+ suf) in
        try_except_else (os_open_excl file)
          (fun e => is_FileExistsError e || is_PermissionError e)
          (fun e =>
             if is_FileExistsError e then
               _mkstemp_inner (N.succ seq) names' dir pre suf
             else
               (* a directory of that name on Windows *)
               nt ← gets (fun s => is_windows (platform s));
               isdir ← gets (fun s => OS.isdir (fs s) dir);
               writable ← gets (fun s => OS.access_w (fs s) dir);
               if nt && isdir && writable
               then _mkstemp_inner (N.succ seq) names' dir pre suf
               else raise e)
          (fun _ => mret file)
    end.

(** Makes empty file to write log to.  The assignment to
    [tempfile._get_candidate_names] makes the host name the only candidate
    that [mkstemp] is offered. *)
Definition make_logfile : M string :=
  timestamp ← gets (fun s => strftime_now (platform s));
  let suffix := "." +:+ timestamp +:+ ".out" in
  let prefix := "fmld." in
  tmpdir ← get_logdir;
  _get_candidate_names ← gets (fun s => [node (platform s)]);
  _mkstemp_inner 0 _get_candidate_names tmpdir prefix suffix.

(** Output log buffer to file in system temp dir or to provided path.
    [not path] holds of [None] and of the empty string. *)
Definition buffer_to_logfile (path : option string) : M (option string) :=
  LOG ← get_logger;
  path ← (match path with
          | Some p => if OS.nonempty p then mret p else make_logfile
          | None => make_logfile
          end);
  try_except
    (open_w path;;
     contents ← get_buffer_contents;
     file_write path contents;;
     mret (Some path))
    is_OSError
    (fun e =>
       Logger_exception LOG e;;
       Logger_error LOG ("Failed to write log file: " +:+ path);;
       mret None).

Definition cacert_paths : list string :=
  [ (* Fedora/CentOS *) "/etc/pki/tls/certs/ca-bundle.crt";
    (* MacOS *) "/etc/ssl/cert.pem";
    (* Ubuntu/Debian *) "/etc/ssl/certs/ca-certificates.crt";
    (* Windows *) "/opscode/chef/embedded/ssl/certs/cacert.pem" ].

(** [for path in paths: if os.path.isfile(path): everpaste._CA_BUNDLE =
    path; break] *)
Fixpoint add_cacert_loop (paths : list string) : M unit :=
  match paths with
  | [] => mret ()
  | path :: rest =>
      found ← gets (fun s => OS.isfile (fs s) path);
      if found : bool then modify (set_CA_BUNDLE path)
      else add_cacert_loop rest
  end.

Definition add_cacert_paths : M unit :=
  bundle ← gets _CA_BUNDLE;
  found ← gets (fun s => OS.isfile (fs s) bundle);
  if negb found then add_cacert_loop cacert_paths else mret ().

(** [everpaste.EverPaste(app_id, app_token).create(content, permanent,
    color)]: the call is recorded and the service answers. *)
Definition EverPaste_create (app_id app_token content : string)
    (permanent color : bool) : M string := fun s =>
  let bundle := _CA_BUNDLE s in
  let s1 := push_paste_call
              {| pc_bundle := bundle; pc_content := content;
                 pc_permanent := permanent; pc_color := color |} s in
  (everpaste_create (platform s) app_id app_token bundle content permanent color,
   s1).

Definition create_paste (content : string) (permanent color : bool)
  : M (option string) :=
  LOG ← get_logger;
  try_except
    (add_cacert_paths;;
     link ← EverPaste_create _APP_ID _APP_TOKEN content permanent color;
     mret (Some link))
    is_Exception
    (fun e =>
       Logger_debug LOG ("Failed to create paste: " +:+ Py.str e);;
       mret None).

(** Create paste of buffer log contents *)
Definition buffer_log_to_paste : M (option string) :=
  contents ← get_buffer_contents;
  if OS.nonempty contents then create_paste contents false false
  else mret None.

(** The calls a client of the logger part of the module makes. *)
Inductive call : Type :=
| GetLogger
| EnableDebug
| DisableDebug
| Log (lvl : level) (msg : string)
| GetBufferContents.

Definition run_call (c : call) (s : State) : State :=
  match c with
  | GetLogger => snd (get_logger s)
  | EnableDebug => snd (enable_debug s)
  | DisableDebug => snd (disable_debug s)
  | Log lvl msg => snd ((LOG ← get_logger; Logger_log LOG lvl msg None) s)
  | GetBufferContents => snd (get_buffer_contents s)
  end.

Definition run_calls (cs : list call) (s : State) : State :=
  foldl (fun s c => run_call c s) s cs.

(** ** Vocabulary of the statements *)

(** The two handlers as [setup_console_handler] and [setup_buffer_handler]
    build them. *)
Definition console_handler (lvl : level) (fmt : Formatter) : Handler :=
  {| name := "console"; formatter := fmt; hlevel := lvl; hstream := Stderr |}.

Definition buffer_handler (contents : string) : Handler :=
  {| name := "buffer"; formatter := _FORMATTER_DEBUG; hlevel := DEBUG;
     hstream := StringIO contents |}.

(** The state a call of [get_logger] leaves, and the one a log call leaves. *)
Definition setup (s : State) : State := snd (get_logger s).

Definition logged (lvl : level) (msg : string) (exc : option exn) (s : State)
  : State :=
  snd (Logger_log (_LOGGER s) lvl msg exc s).

(** The line a record adds to the buffer. *)
Definition buffer_line (s : State) (lvl : level) (msg : string)
    (exc : option exn) : string :=
  format _FORMATTER_DEBUG
    {| rlevel := lvl; rmsg := msg; rasctime := asctime_now (platform s);
       rexc := exc |} +:+ nl.

(** The setup invariant of the module: before the first [get_logger] the
    logger has no handler; afterwards it has the console handler, at the
    level and format of the module's console settings, and the buffer
    handler. *)
Definition attached (s : State) : Prop :=
  if _LOG_SETUP s then
    exists contents,
      handlers s = [console_handler (_CONSOLE_LEVEL s) (_CONSOLE_FORMAT s);
                    buffer_handler contents]
  else handlers s = [].

(** What the buffer holds: the text of the first handler named "buffer". *)
Definition buffer_text (s : State) : string :=
  match find_buffer (handlers s) with
  | Ok contents => contents
  | Raise _ => ""
  end.

(** [n] successive calls of [m], with their results in order. *)
Fixpoint repeat_M {A} (n : nat) (m : M A) : M (list A) :=
  match n with
  | O => mret []
  | S n' => a ← m; l ← repeat_M n' m; mret (a :: l)
  end.

(** A toggle of debug mode, and a sequence of them. *)
Definition toggle (on : bool) : M unit :=
  if on then enable_debug else disable_debug.

Definition toggles (ts : list bool) (s : State) : State :=
  foldl (fun s on => snd (toggle on s)) s ts.

Definition level_of (on : bool) : level := if on then DEBUG else INFO.
Definition format_of (on : bool) : Formatter :=
  if on then _FORMATTER_DEBUG else _FORMATTER_USER.

(** A handler after a toggle: one named "console" takes the level and the
    format of the mode, any other handler is as before. *)
Definition retarget (on : bool) (h : Handler) : Handler :=
  if String.eqb (name h) "console" then
    {| name := name h; formatter := format_of on; hlevel := level_of on;
       hstream := hstream h |}
  else h.

(** The text that a sequence of client calls adds to the buffer: one line
    per log call, in order. *)
Definition call_text (s : State) (c : call) : string :=
  match c with
  | Log lvl msg => buffer_line s lvl msg None
  | _ => ""
  end.

Definition calls_text (s : State) (cs : list call) : string :=
  foldr (fun c acc => call_text s c +:+ acc) "" cs.

(** The second half of [get_logdir], from the write test on, for a given
    value of [use_tempdir]; [get_logdir_unfold] below splits [get_logdir]
    at this point. *)
Definition get_logdir_probe (LOG : LoggerRef) (syslogdir : string)
    (use_tempdir : bool) : M string :=
  let testfile := syslogdir +:+ "/fmld.testfile" in
  fallback ← (if use_tempdir then mret true
              else ok ← write_testfile testfile; mret (negb ok));
  if fallback : bool then
    logdir ← get_tempdir;
    Logger_debug LOG ("Logging to temporary log directory " +:+ logdir);;
    ok ← write_testfile testfile;
    (if negb ok then
       Logger_error LOG
         "Failed to write log file: Failed to write to {syslogdir} and {logdir}"
     else mret ());;
    mret logdir
  else mret syslogdir.

(** The bundle path that CA bundle discovery settles on: the configured
    one when it names a file, else the first of [cacert_paths] that does,
    else the configured one. *)
Definition discovered_bundle (s : State) : string :=
  if OS.isfile (fs s) (_CA_BUNDLE s) then _CA_BUNDLE s
  else default (_CA_BUNDLE s) (find (OS.isfile (fs s)) cacert_paths).

(** The file operations that belong to the system log path: on the path
    itself and on its marker file. *)
Definition logdir_syscall (pl : Platform) (c : OS.syscall) : Prop :=
  match _LOG_DIR pl with
  | Some d =>
      OS.syscall_path c = d \/ OS.syscall_path c = d +:+ "/fmld.testfile"
  | None => False
  end.

(** What every function of the module respects between the state it
    starts in and the state it leaves: the platform, the environment and
    the global [_LOGGER] are the same, the setup invariant and a finished
    setup are kept, and the file operations issued in between all satisfy
    [P]. *)
Definition follows (P : OS.syscall -> Prop) (s s' : State) : Prop :=
  platform s' = platform s /\
  environ s' = environ s /\
  _LOGGER s' = _LOGGER s /\
  (attached s -> attached s') /\
  (_LOG_SETUP s = true -> _LOG_SETUP s' = true) /\
  exists l, syscalls s' = (syscalls s ++ l)%list /\ Forall P l.

(** Weakest precondition: [Q] holds of the outcome of [m] from [s]. *)
Definition wp {A} (m : M A) (Q : res A -> State -> Prop) (s : State) : Prop :=
  Q (fst (m s)) (snd (m s)).

(** *** Sample platforms and filesystems *)

Definition lab_linux : Platform :=
  {| is_linux := true; is_mac := false; is_windows := false;
     default_tempdir := "/tmp"; node := "lab01";
     strftime_now := "20240102.030405";
     asctime_now := "2024-01-02 03:04:05,678";
     disk_full := false;
     everpaste_create := fun _ _ _ _ _ _ => Ok "https://paste/1" |}.

(** The same machine with the paste service out of reach. *)
Definition lab_offline : Platform :=
  {| is_linux := true; is_mac := false; is_windows := false;
     default_tempdir := "/tmp"; node := "lab01";
     strftime_now := "20240102.030405";
     asctime_now := "2024-01-02 03:04:05,678";
     disk_full := false;
     everpaste_create := fun _ _ _ _ _ _ => Raise ConnectionError |}.

(** [/var/tmp] is a writable directory. *)
Definition fs_good : gmap string OS.node :=
  <["/var/tmp" := OS.Dir true]>
    (<["/tmp" := OS.Dir true]>
       (<["/var" := OS.Dir true]> (<["/" := OS.Dir true]> ∅))).

(** [/var/tmp] is a regular file; [/tmp] is a writable directory. *)
Definition fs_logdir_is_file : gmap string OS.node :=
  <["/var/tmp" := OS.File true "x"]>
    (<["/tmp" := OS.Dir true]>
       (<["/var" := OS.Dir true]> (<["/" := OS.Dir true]> ∅))).

(** [/var/tmp] is writable and already holds the log file of host [lab01]
    for the second 2024-01-02 03:04:05. *)
Definition fs_logfile_taken : gmap string OS.node :=
  <["/var/tmp/fmld.lab01.20240102.030405.out" := OS.File true "old"]> fs_good.

(** [/var] is a regular file, so [/var/tmp] is missing and cannot be made. *)
Definition fs_var_is_file : gmap string OS.node :=
  <["/var" := OS.File true ""]>
    (<["/tmp" := OS.Dir true]> (<["/" := OS.Dir true]> ∅)).

(** [/var] is a directory closed to writing and [/var/tmp] is missing. *)
Definition fs_var_readonly : gmap string OS.node :=
  <["/var" := OS.Dir false]>
    (<["/tmp" := OS.Dir true]> (<["/" := OS.Dir true]> ∅)).

(** The same machine with no space left on the disk. *)
Definition lab_full_disk : Platform :=
  {| is_linux := true; is_mac := false; is_windows := false;
     default_tempdir := "/tmp"; node := "lab01";
     strftime_now := "20240102.030405";
     asctime_now := "2024-01-02 03:04:05,678";
     disk_full := true;
     everpaste_create := fun _ _ _ _ _ _ => Ok "https://paste/1" |}.

(** [/var/tmp] is writable and holds an earlier export [old.log]. *)
Definition fs_old_export : gmap string OS.node :=
  <["/var/tmp/old.log" := OS.File true "earlier text"]> fs_good.

(** Only the macOS certificate file is present. *)
Definition fs_mac_certs : gmap string OS.node :=
  <["/etc/ssl/cert.pem" := OS.File false "certs"]> fs_good.

(** * Properties *)

(** ** The weakest-precondition calculus *)

Lemma wp_ret {A} (a : A) Q s : Q (Ok a) s -> wp (mret a) Q s.
Proof. exact (fun H => H). Qed.

Lemma wp_bind {A B} (m : M A) (f : A -> M B) Q s :
  wp m (fun r s' => match r with
                    | Ok a => wp (f a) Q s'
                    | Raise e => Q (Raise e) s'
                    end) s ->
  wp (m ≫= f) Q s.
Proof.
  unfold wp, mbind, M_bind. destruct (m s) as [[a|e] s']; simpl; auto.
Qed.

Lemma wp_raise {A} (e : exn) (Q : res A -> State -> Prop) s :
  Q (Raise e) s -> wp (raise e) Q s.
Proof. exact (fun H => H). Qed.

Lemma wp_gets {A} (f : State -> A) Q s : Q (Ok (f s)) s -> wp (gets f) Q s.
Proof. exact (fun H => H). Qed.

Lemma wp_modify (f : State -> State) Q s : Q (Ok ()) (f s) -> wp (modify f) Q s.
Proof. exact (fun H => H). Qed.

Lemma wp_try_except {A} (body : M A) (catches : exn -> bool)
    (handler : exn -> M A) Q s :
  wp body (fun r s' => match r with
                       | Ok a => Q (Ok a) s'
                       | Raise e =>
                           if catches e then wp (handler e) Q s'
                           else Q (Raise e) s'
                       end) s ->
  wp (try_except body catches handler) Q s.
Proof.
  unfold wp, try_except. destruct (body s) as [[a|e] s']; simpl; auto.
  destruct (catches e); auto.
Qed.

Lemma wp_try_except_else {A B} (body : M A) (catches : exn -> bool)
    (handler : exn -> M B) (orelse : A -> M B) Q s :
  wp body (fun r s' => match r with
                       | Ok a => wp (orelse a) Q s'
                       | Raise e =>
                           if catches e then wp (handler e) Q s'
                           else Q (Raise e) s'
                       end) s ->
  wp (try_except_else body catches handler orelse) Q s.
Proof.
  unfold wp, try_except_else. destruct (body s) as [[a|e] s']; simpl; auto.
  destruct (catches e); auto.
Qed.

Lemma wp_mono {A} (m : M A) (Q Q' : res A -> State -> Prop) s :
  (forall r s', Q r s' -> Q' r s') -> wp m Q s -> wp m Q' s.
Proof. unfold wp. auto. Qed.

Lemma wp_sys c (op : gmap string OS.node -> res (gmap string OS.node)) Q s :
  match op (fs s) with
  | Ok m => Q (Ok ()) (set_fs m (push_syscall c s))
  | Raise e => Q (Raise e) (push_syscall c s)
  end ->
  wp (sys c op) Q s.
Proof.
  unfold wp, sys. simpl. destruct (op (fs s)); auto.
Qed.

(** The outcome of a computation, from its weakest precondition. *)
Lemma wp_run {A} (m : M A) Q s : wp m Q s -> Q (fst (m s)) (snd (m s)).
Proof. exact (fun H => H). Qed.

(** ** The logger: setup and log calls as state transformers *)

Lemma get_logger_eq s : get_logger s = (Ok (_LOGGER s), setup s).
Proof.
  unfold setup, get_logger. destruct s as [L hs [] cl cf e f sc en ca pc pl];
    reflexivity.
Qed.

Lemma setup_done s : _LOG_SETUP s = true -> setup s = s.
Proof.
  destruct s as [L hs b cl cf e f sc en ca pc pl]; simpl; intros ->.
  reflexivity.
Qed.

Lemma setup_fresh s :
  _LOG_SETUP s = false ->
  setup s =
  set_LOG_SETUP true
    (set_handlers
       (handlers s ++
        [console_handler (_CONSOLE_LEVEL s) (_CONSOLE_FORMAT s);
         buffer_handler ""])%list s).
Proof.
  destruct s as [L hs b cl cf e f sc en ca pc pl]; simpl; intros ->.
  unfold setup, set_LOG_SETUP, set_handlers; simpl.
  rewrite <- app_assoc. reflexivity.
Qed.

Lemma setup_LOG_SETUP s : _LOG_SETUP (setup s) = true.
Proof.
  destruct (_LOG_SETUP s) eqn:E.
  - rewrite setup_done; auto.
  - rewrite setup_fresh; auto.
Qed.

Lemma setup_idem s : setup (setup s) = setup s.
Proof. apply setup_done, setup_LOG_SETUP. Qed.

(** [get_logger] touches the handler list and the setup flag, nothing else. *)
Lemma setup_frame s :
  _LOGGER (setup s) = _LOGGER s /\
  _CONSOLE_LEVEL (setup s) = _CONSOLE_LEVEL s /\
  _CONSOLE_FORMAT (setup s) = _CONSOLE_FORMAT s /\
  stderr (setup s) = stderr s /\
  fs (setup s) = fs s /\
  syscalls (setup s) = syscalls s /\
  environ (setup s) = environ s /\
  _CA_BUNDLE (setup s) = _CA_BUNDLE s /\
  paste_calls (setup s) = paste_calls s /\
  platform (setup s) = platform s.
Proof.
  destruct (_LOG_SETUP s) eqn:E.
  - rewrite setup_done; auto 12.
  - rewrite setup_fresh; auto. simpl. auto 12.
Qed.

Lemma wp_get_logger Q s : Q (Ok (_LOGGER s)) (setup s) -> wp get_logger Q s.
Proof. unfold wp. rewrite get_logger_eq. auto. Qed.

Lemma Logger_log_eq LOG lvl msg exc s :
  Logger_log LOG lvl msg exc s = (Ok (), logged lvl msg exc s).
Proof.
  unfold logged, Logger_log.
  destruct (Nat.leb _ _); [|reflexivity].
  destruct (callHandlers _ _ _); reflexivity.
Qed.

Lemma logged_frame lvl msg exc s :
  _LOGGER (logged lvl msg exc s) = _LOGGER s /\
  _LOG_SETUP (logged lvl msg exc s) = _LOG_SETUP s /\
  _CONSOLE_LEVEL (logged lvl msg exc s) = _CONSOLE_LEVEL s /\
  _CONSOLE_FORMAT (logged lvl msg exc s) = _CONSOLE_FORMAT s /\
  fs (logged lvl msg exc s) = fs s /\
  syscalls (logged lvl msg exc s) = syscalls s /\
  environ (logged lvl msg exc s) = environ s /\
  _CA_BUNDLE (logged lvl msg exc s) = _CA_BUNDLE s /\
  paste_calls (logged lvl msg exc s) = paste_calls s /\
  platform (logged lvl msg exc s) = platform s.
Proof.
  unfold logged, Logger_log.
  destruct (Nat.leb _ _); [|auto 12].
  destruct (callHandlers _ _ _); simpl; auto 12.
Qed.

Lemma wp_Logger_log LOG lvl msg exc Q s :
  Q (Ok ()) (logged lvl msg exc s) -> wp (Logger_log LOG lvl msg exc) Q s.
Proof. unfold wp. rewrite Logger_log_eq. auto. Qed.

(** A log call leaves the handlers' names, levels and formats alone and
    appends the record's line to the buffer. *)
Lemma logged_handlers lvl msg exc s cl cf contents :
  handlers s = [console_handler cl cf; buffer_handler contents] ->
  handlers (logged lvl msg exc s) =
  [console_handler cl cf;
   buffer_handler (contents +:+ buffer_line s lvl msg exc)].
Proof.
  intros H. unfold logged, Logger_log. rewrite H.
  destruct lvl, cl; reflexivity.
Qed.

Lemma logged_no_handlers lvl msg exc s :
  handlers s = [] -> handlers (logged lvl msg exc s) = [].
Proof.
  intros H. unfold logged, Logger_log. rewrite H.
  destruct (Nat.leb _ _); simpl; auto.
Qed.

Lemma attached_initial pl files env bundle :
  attached (initial pl files env bundle).
Proof. reflexivity. Qed.

Lemma attached_setup s : attached s -> attached (setup s).
Proof.
  unfold attached. destruct (_LOG_SETUP s) eqn:E.
  - rewrite setup_done, E; auto.
  - intros H. rewrite setup_fresh by auto. simpl. rewrite H. eauto.
Qed.

Lemma attached_logged lvl msg exc s : attached s -> attached (logged lvl msg exc s).
Proof.
  unfold attached.
  destruct (logged_frame lvl msg exc s) as (_ & -> & -> & -> & _).
  destruct (_LOG_SETUP s).
  - intros [v H]. erewrite logged_handlers by eauto. eauto.
  - apply logged_no_handlers.
Qed.

(** After setup the handlers are the console handler and the buffer
    handler. *)
Lemma attached_handlers s :
  attached s ->
  handlers (setup s) =
  [console_handler (_CONSOLE_LEVEL s) (_CONSOLE_FORMAT s);
   buffer_handler (buffer_text s)].
Proof.
  unfold attached, buffer_text. destruct (_LOG_SETUP s) eqn:E.
  - intros [v H]. rewrite setup_done by auto. rewrite H. reflexivity.
  - intros H. rewrite setup_fresh by auto. simpl. rewrite H. reflexivity.
Qed.

(** ** Repeated [get_logger] *)

Lemma repeat_get_logger_done s n :
  _LOG_SETUP s = true ->
  repeat_M n get_logger s = (Ok (replicate n (_LOGGER s)), s).
Proof.
  intros E. induction n as [|n IH]; [reflexivity|].
  simpl. unfold mbind, M_bind at 1. rewrite get_logger_eq, setup_done by auto.
  unfold mbind, M_bind at 1. rewrite IH. reflexivity.
Qed.

(** C1. In every state under the setup invariant (the module after import,
    or after any calls), any number [S n] of successive calls of
    [get_logger] returns the same logger reference every time and leaves
    exactly the state that the first of them leaves.  In that state the
    logger has the console handler and the buffer handler, each once; and
    a call made when setup has already run changes nothing, so the two
    handlers are attached by the first call ever and by no other. *)
Theorem get_logger_attaches_once (s : State) (n : nat) :
  attached s ->
  repeat_M (S n) get_logger s = (Ok (replicate (S n) (_LOGGER s)), setup s) /\
  handlers (setup s) =
    [console_handler (_CONSOLE_LEVEL s) (_CONSOLE_FORMAT s);
     buffer_handler (buffer_text s)] /\
  (_LOG_SETUP s = false -> handlers s = []) /\
  (_LOG_SETUP s = true -> setup s = s).
Proof.
  intros Ha. split; [|split; [|split]].
  - change (repeat_M (S n) get_logger)
      with (a ← get_logger; l ← repeat_M n get_logger; mret (a :: l)).
    unfold mbind, M_bind at 1. rewrite get_logger_eq.
    unfold mbind, M_bind at 1.
    rewrite repeat_get_logger_done by apply setup_LOG_SETUP.
    destruct (setup_frame s) as (-> & _). reflexivity.
  - apply attached_handlers, Ha.
  - intros E. unfold attached in Ha. rewrite E in Ha. exact Ha.
  - apply setup_done.
Qed.

Lemma get_logger_attaches_once_witness :
  repeat_M 3 get_logger (initial lab_linux fs_good ∅ "") =
    (Ok ["fixmylabdevice"; "fixmylabdevice"; "fixmylabdevice"],
     setup (initial lab_linux fs_good ∅ "")) /\
  handlers (setup (initial lab_linux fs_good ∅ "")) =
    [console_handler INFO _FORMATTER_USER; buffer_handler ""].
Proof.
  destruct (get_logger_attaches_once (initial lab_linux fs_good ∅ "") 2
              eq_refl) as (H1 & H2 & _).
  split; [exact H1|exact H2].
Defined.

(** ** Debug mode *)

Lemma toggle_unset on s :
  _LOG_SETUP s = false ->
  toggle on s = (Ok (), set_CONSOLE (level_of on) (format_of on) s).
Proof.
  destruct s as [L hs b cl cf e f sc en ca pc pl]; simpl; intros ->.
  destruct on; reflexivity.
Qed.

Lemma toggle_set on s :
  _LOG_SETUP s = true ->
  toggle on s =
  (Ok (), set_handlers (map (retarget on) (handlers s))
            (set_CONSOLE (level_of on) (format_of on) s)).
Proof.
  destruct s as [L hs b cl cf e f sc en ca pc pl]; simpl; intros ->.
  destruct on; reflexivity.
Qed.

Lemma retarget_retarget on on' h : retarget on (retarget on' h) = retarget on h.
Proof.
  unfold retarget. destruct (String.eqb (name h) "console") eqn:E; simpl;
    rewrite E; reflexivity.
Qed.

Lemma toggles_snoc ts on s :
  toggles (ts ++ [on]) s = snd (toggle on (toggles ts s)).
Proof. unfold toggles. rewrite foldl_app. reflexivity. Qed.

Lemma toggles_unset ts s :
  _LOG_SETUP s = false ->
  toggles ts s =
  match last ts with
  | None => s
  | Some on => set_CONSOLE (level_of on) (format_of on) s
  end.
Proof.
  intros E. induction ts as [|on ts IH] using rev_ind; [reflexivity|].
  rewrite toggles_snoc, last_snoc, IH.
  destruct (last ts); rewrite toggle_unset; auto;
    destruct s; reflexivity.
Qed.

Lemma toggles_set ts s :
  _LOG_SETUP s = true ->
  toggles ts s =
  match last ts with
  | None => s
  | Some on =>
      set_handlers (map (retarget on) (handlers s))
        (set_CONSOLE (level_of on) (format_of on) s)
  end.
Proof.
  intros E. induction ts as [|on ts IH] using rev_ind; [reflexivity|].
  rewrite toggles_snoc, last_snoc, IH.
  destruct (last ts); rewrite toggle_set; auto; simpl.
  unfold set_handlers, set_CONSOLE; simpl. rewrite map_map.
  f_equal. apply map_ext. intros h. apply retarget_retarget.
Qed.

Lemma find_buffer_retarget on hs :
  find_buffer (map (retarget on) hs) = find_buffer hs.
Proof.
  induction hs as [|h hs IH]; [reflexivity|].
  simpl. unfold retarget at 1 2.
  destruct (String.eqb (name h) "console") eqn:E; simpl; rewrite IH; auto.
Qed.

(** C4. Once the logger is set up, a sequence of debug toggles ending in
    [on] leaves the state of the last toggle alone: the handlers named
    "console" have the level and format of that mode (DEBUG and the
    detailed format for [enable_debug], INFO and the message-only format
    for [disable_debug]), the module's console defaults follow, and
    nothing else differs.  In particular the buffer handler, with its
    level, format and accumulated text, is the one from before. *)
Theorem toggles_change_console_only (s : State) (ts : list bool) (on : bool) :
  _LOG_SETUP s = true ->
  toggles (ts ++ [on]) s =
    set_handlers (map (retarget on) (handlers s))
      (set_CONSOLE (level_of on) (format_of on) s) /\
  find_buffer (handlers (toggles (ts ++ [on]) s)) = find_buffer (handlers s) /\
  (forall cl cf contents,
     handlers s = [console_handler cl cf; buffer_handler contents] ->
     handlers (toggles (ts ++ [on]) s) =
       [console_handler (level_of on) (format_of on); buffer_handler contents]).
Proof.
  intros E. rewrite toggles_set, last_snoc by auto. simpl.
  split; [reflexivity|]. split.
  - apply find_buffer_retarget.
  - intros cl cf contents ->. reflexivity.
Qed.

Lemma toggles_change_console_only_witness :
  handlers
    (toggles [true; false; true] (setup (initial lab_linux fs_good ∅ ""))) =
  [console_handler DEBUG _FORMATTER_DEBUG; buffer_handler ""].
Proof.
  apply (toggles_change_console_only (setup (initial lab_linux fs_good ∅ ""))
           [true; false] true eq_refl) with (cl := INFO) (cf := _FORMATTER_USER).
  reflexivity.
Defined.

(** C9. A toggle made before the first [get_logger] is kept in the
    module's console defaults: after any sequence of toggles ending in
    [on], no handler is attached yet, and the console handler that
    [get_logger] then creates has the level and the format of [on]. *)
Theorem toggle_before_setup_kept (s : State) (ts : list bool) (on : bool) :
  _LOG_SETUP s = false ->
  handlers s = [] ->
  _CONSOLE_LEVEL (toggles (ts ++ [on]) s) = level_of on /\
  _CONSOLE_FORMAT (toggles (ts ++ [on]) s) = format_of on /\
  handlers (toggles (ts ++ [on]) s) = [] /\
  handlers (setup (toggles (ts ++ [on]) s)) =
    [console_handler (level_of on) (format_of on); buffer_handler ""].
Proof.
  intros E H. rewrite toggles_unset, last_snoc by auto. simpl.
  repeat split; auto.
  rewrite setup_fresh by auto. simpl. rewrite H. reflexivity.
Qed.

Lemma toggle_before_setup_kept_witness :
  handlers (setup (toggles [false; true] (initial lab_linux fs_good ∅ ""))) =
  [console_handler DEBUG _FORMATTER_DEBUG; buffer_handler ""].
Proof.
  apply (toggle_before_setup_kept (initial lab_linux fs_good ∅ "") [false] true);
    reflexivity.
Defined.

(** ** What the filesystem operations raise *)

Lemma parent_check_OSError m p e :
  OS.parent_check m p = Raise e -> is_OSError e = true.
Proof.
  unfold OS.parent_check. repeat case_match; intros [= <-]; reflexivity.
Qed.

Lemma open_w_OSError m p e : OS.open_w m p = Raise e -> is_OSError e = true.
Proof.
  unfold OS.open_w. repeat case_match; try discriminate;
    try (intros [= <-]; reflexivity).
  intros [= <-]. eapply parent_check_OSError; eauto.
Qed.

Lemma write_OSError df m p data e :
  OS.write df m p data = Raise e -> is_OSError e = true.
Proof.
  unfold OS.write. repeat case_match; try discriminate;
    intros [= <-]; reflexivity.
Qed.

Lemma remove_OSError m p e : OS.remove m p = Raise e -> is_OSError e = true.
Proof.
  unfold OS.remove. repeat case_match; try discriminate;
    try (intros [= <-]; reflexivity).
  intros [= <-]. eapply parent_check_OSError; eauto.
Qed.

Lemma open_excl_OSError m p e :
  OS.open_excl m p = Raise e -> is_OSError e = true.
Proof.
  unfold OS.open_excl. repeat case_match; try discriminate;
    try (intros [= <-]; reflexivity).
  intros [= <-]. eapply parent_check_OSError; eauto.
Qed.

(** A successful write leaves the data in the file. *)
Lemma write_read df m p data m' :
  OS.write df m p data = Ok m' -> OS.read m' p = Some data.
Proof.
  unfold OS.write, OS.read. repeat case_match; try discriminate.
  all: intros [= <-]; rewrite lookup_insert_eq in *; congruence.
Qed.

(** ** Proof steps for module code *)

Ltac wp_step :=
  lazymatch goal with
  | |- wp (mbind _ _) _ _ => apply wp_bind
  | |- wp (mret _) _ _ => apply wp_ret
  | |- wp (gets _) _ _ => apply wp_gets
  | |- wp (modify _) _ _ => apply wp_modify
  | |- wp (raise _) _ _ => apply wp_raise
  | |- wp get_logger _ _ => apply wp_get_logger
  | |- wp (Logger_log _ _ _ _) _ _ => apply wp_Logger_log
  | |- wp (Logger_debug _ _) _ _ => apply wp_Logger_log
  | |- wp (Logger_info _ _) _ _ => apply wp_Logger_log
  | |- wp (Logger_warning _ _) _ _ => apply wp_Logger_log
  | |- wp (Logger_error _ _) _ _ => apply wp_Logger_log
  | |- wp (Logger_exception _ _) _ _ => apply wp_Logger_log
  | |- wp (try_except _ _ _) _ _ => apply wp_try_except
  | |- wp (try_except_else _ _ _ _) _ _ => apply wp_try_except_else
  | |- wp (sys _ _) _ _ => apply wp_sys
  | |- wp (open_w _) _ _ => apply wp_sys
  | |- wp (os_remove _) _ _ => apply wp_sys
  | |- wp (os_makedirs _) _ _ => apply wp_sys
  | |- wp (os_open_excl _) _ _ => apply wp_sys
  end; cbv beta iota.

Ltac wp_steps := repeat wp_step.

Lemma get_buffer_contents_eq s :
  get_buffer_contents s = (find_buffer (handlers (setup s)), setup s).
Proof.
  unfold get_buffer_contents, mbind, M_bind. rewrite get_logger_eq. simpl.
  destruct (find_buffer _); reflexivity.
Qed.

Lemma wp_get_buffer_contents Q s :
  Q (find_buffer (handlers (setup s))) (setup s) -> wp get_buffer_contents Q s.
Proof. unfold wp. rewrite get_buffer_contents_eq. auto. Qed.

Lemma wp_file_write p data Q s :
  match OS.write (disk_full (platform s)) (fs s) p data with
  | Ok m => Q (Ok ()) (set_fs m (push_syscall (OS.SysWrite p) s))
  | Raise e => Q (Raise e) (push_syscall (OS.SysWrite p) s)
  end ->
  wp (file_write p data) Q s.
Proof. intros H. unfold file_write. apply wp_sys. exact H. Qed.

(** ** The buffer *)

Lemma string_app_nil_r (a : string) : a +:+ "" = a.
Proof.
  induction a as [|c a IH]; [reflexivity|].
  change (String c (a +:+ "") = String c a). now rewrite IH.
Qed.

Lemma string_app_assoc (a b c : string) : (a +:+ b) +:+ c = a +:+ (b +:+ c).
Proof.
  induction a as [|x a IH]; [reflexivity|].
  change (String x ((a +:+ b) +:+ c) = String x (a +:+ (b +:+ c))).
  now rewrite IH.
Qed.

Lemma find_buffer_raises hs e :
  find_buffer hs = Raise e -> e = BufferError \/ e = AttributeError.
Proof.
  induction hs as [|h hs IH]; simpl.
  - intros [= <-]; auto.
  - destruct (String.eqb (name h) "buffer"); [|exact IH].
    destruct (hstream h); [|discriminate]. intros [= <-]; auto.
Qed.

Lemma find_buffer_BufferError hs :
  find_buffer hs = Raise BufferError <->
  Forall (fun h => name h <> "buffer") hs.
Proof.
  induction hs as [|h hs IH]; simpl.
  - split; auto.
  - destruct (String.eqb (name h) "buffer") eqn:E.
    + apply String.eqb_eq in E. split.
      * destruct (hstream h); discriminate.
      * intros H. apply Forall_cons in H as [H _]. contradiction.
    + apply String.eqb_neq in E. rewrite IH. split.
      * intros H. apply Forall_cons. auto.
      * intros H. apply Forall_cons in H as [_ H]. exact H.
Qed.

Lemma find_buffer_first hs1 hs2 h contents :
  Forall (fun h => name h <> "buffer") hs1 ->
  name h = "buffer" ->
  hstream h = StringIO contents ->
  find_buffer (hs1 ++ h :: hs2) = Ok contents.
Proof.
  intros H Hn Hs. induction H as [|h1 hs1 H1 _ IH]; simpl.
  - rewrite Hn, Hs. reflexivity.
  - apply String.eqb_neq in H1. rewrite H1. exact IH.
Qed.

Lemma attached_buffer_text s :
  attached s -> find_buffer (handlers (setup s)) = Ok (buffer_text s).
Proof. intros H. rewrite attached_handlers by auto. reflexivity. Qed.

Lemma buffer_text_setup s : attached s -> buffer_text (setup s) = buffer_text s.
Proof.
  intros H. unfold buffer_text at 1. rewrite attached_buffer_text; auto.
Qed.

Lemma attached_toggle on s : attached s -> attached (snd (toggle on s)).
Proof.
  unfold attached. destruct (_LOG_SETUP s) eqn:E.
  - intros [v H]. rewrite toggle_set by auto. simpl. rewrite E, H. eauto.
  - intros H. rewrite toggle_unset by auto. simpl. rewrite E. exact H.
Qed.

Lemma buffer_text_toggle on s :
  buffer_text (snd (toggle on s)) = buffer_text s.
Proof.
  unfold buffer_text. destruct (_LOG_SETUP s) eqn:E.
  - rewrite toggle_set by auto. simpl. rewrite find_buffer_retarget. auto.
  - rewrite toggle_unset by auto. reflexivity.
Qed.

Lemma platform_toggle on s : platform (snd (toggle on s)) = platform s.
Proof.
  destruct (_LOG_SETUP s) eqn:E.
  - rewrite toggle_set by auto. reflexivity.
  - rewrite toggle_unset by auto. reflexivity.
Qed.

Lemma buffer_text_logged lvl msg exc s :
  attached s ->
  buffer_text (logged lvl msg exc (setup s)) =
  buffer_text s +:+ buffer_line s lvl msg exc.
Proof.
  intros H. unfold buffer_text at 1.
  erewrite logged_handlers by (apply attached_handlers; auto).
  simpl. unfold buffer_line.
  destruct (setup_frame s) as (_ & _ & _ & _ & _ & _ & _ & _ & _ & ->).
  reflexivity.
Qed.

Lemma run_call_Log lvl msg s :
  run_call (Log lvl msg) s = logged lvl msg None (setup s).
Proof.
  unfold run_call, mbind, M_bind. rewrite get_logger_eq, Logger_log_eq.
  reflexivity.
Qed.

(** Every client call keeps the setup invariant and the platform, and adds
    its text to the buffer. *)
Lemma run_call_spec c s :
  attached s ->
  attached (run_call c s) /\
  platform (run_call c s) = platform s /\
  buffer_text (run_call c s) = buffer_text s +:+ call_text s c.
Proof.
  intros H.
  destruct (setup_frame s) as (_ & _ & _ & _ & _ & _ & _ & _ & _ & Hpl).
  destruct c; simpl call_text; rewrite ?string_app_nil_r.
  - unfold run_call. rewrite get_logger_eq. simpl.
    auto using attached_setup, buffer_text_setup.
  - change (run_call EnableDebug s) with (snd (toggle true s)).
    auto using attached_toggle, buffer_text_toggle, platform_toggle.
  - change (run_call DisableDebug s) with (snd (toggle false s)).
    auto using attached_toggle, buffer_text_toggle, platform_toggle.
  - rewrite run_call_Log. split; [|split].
    + auto using attached_logged, attached_setup.
    + destruct (logged_frame lvl msg None (setup s))
        as (_ & _ & _ & _ & _ & _ & _ & _ & _ & ->). exact Hpl.
    + apply buffer_text_logged; auto.
  - unfold run_call. rewrite get_buffer_contents_eq. simpl.
    auto using attached_setup, buffer_text_setup.
Qed.

Lemma calls_text_platform s s' cs :
  platform s' = platform s -> calls_text s' cs = calls_text s cs.
Proof.
  intros H. unfold calls_text. induction cs as [|c cs IH]; simpl; [auto|].
  rewrite IH. f_equal. destruct c; simpl; auto.
  unfold buffer_line. rewrite H. reflexivity.
Qed.

Lemma run_calls_spec cs s :
  attached s ->
  attached (run_calls cs s) /\
  platform (run_calls cs s) = platform s /\
  buffer_text (run_calls cs s) = buffer_text s +:+ calls_text s cs.
Proof.
  revert s. induction cs as [|c cs IH]; intros s H.
  - simpl. rewrite string_app_nil_r. auto.
  - destruct (run_call_spec c s H) as (Ha & Hp & Ht).
    destruct (IH _ Ha) as (Ha' & Hp' & Ht').
    change (run_calls (c :: cs) s) with (run_calls cs (run_call c s)).
    split; [exact Ha'|]. split; [congruence|].
    rewrite Ht', Ht, string_app_assoc.
    rewrite (calls_text_platform s (run_call c s)) by auto.
    reflexivity.
Qed.

(** ** Frame equations, as rewrite rules *)

Lemma setup_LOGGER s : _LOGGER (setup s) = _LOGGER s.
Proof. pose proof (setup_frame s). tauto. Qed.

Lemma setup_CONSOLE_LEVEL s : _CONSOLE_LEVEL (setup s) = _CONSOLE_LEVEL s.
Proof. pose proof (setup_frame s). tauto. Qed.

Lemma setup_CONSOLE_FORMAT s : _CONSOLE_FORMAT (setup s) = _CONSOLE_FORMAT s.
Proof. pose proof (setup_frame s). tauto. Qed.

Lemma setup_stderr s : stderr (setup s) = stderr s.
Proof. pose proof (setup_frame s). tauto. Qed.

Lemma setup_fs s : fs (setup s) = fs s.
Proof. pose proof (setup_frame s). tauto. Qed.

Lemma setup_syscalls s : syscalls (setup s) = syscalls s.
Proof. pose proof (setup_frame s). tauto. Qed.

Lemma setup_environ s : environ (setup s) = environ s.
Proof. pose proof (setup_frame s). tauto. Qed.

Lemma setup_CA_BUNDLE s : _CA_BUNDLE (setup s) = _CA_BUNDLE s.
Proof. pose proof (setup_frame s). tauto. Qed.

Lemma setup_paste_calls s : paste_calls (setup s) = paste_calls s.
Proof. pose proof (setup_frame s). tauto. Qed.

Lemma setup_platform s : platform (setup s) = platform s.
Proof. pose proof (setup_frame s). tauto. Qed.

Lemma logged_LOGGER lvl msg exc s :
  _LOGGER (logged lvl msg exc s) = _LOGGER s.
Proof. pose proof (logged_frame lvl msg exc s). tauto. Qed.

Lemma logged_LOG_SETUP lvl msg exc s :
  _LOG_SETUP (logged lvl msg exc s) = _LOG_SETUP s.
Proof. pose proof (logged_frame lvl msg exc s). tauto. Qed.

Lemma logged_CONSOLE_LEVEL lvl msg exc s :
  _CONSOLE_LEVEL (logged lvl msg exc s) = _CONSOLE_LEVEL s.
Proof. pose proof (logged_frame lvl msg exc s). tauto. Qed.

Lemma logged_CONSOLE_FORMAT lvl msg exc s :
  _CONSOLE_FORMAT (logged lvl msg exc s) = _CONSOLE_FORMAT s.
Proof. pose proof (logged_frame lvl msg exc s). tauto. Qed.

Lemma logged_fs lvl msg exc s :
  fs (logged lvl msg exc s) = fs s.
Proof. pose proof (logged_frame lvl msg exc s). tauto. Qed.

Lemma logged_syscalls lvl msg exc s :
  syscalls (logged lvl msg exc s) = syscalls s.
Proof. pose proof (logged_frame lvl msg exc s). tauto. Qed.

Lemma logged_environ lvl msg exc s :
  environ (logged lvl msg exc s) = environ s.
Proof. pose proof (logged_frame lvl msg exc s). tauto. Qed.

Lemma logged_CA_BUNDLE lvl msg exc s :
  _CA_BUNDLE (logged lvl msg exc s) = _CA_BUNDLE s.
Proof. pose proof (logged_frame lvl msg exc s). tauto. Qed.

Lemma logged_paste_calls lvl msg exc s :
  paste_calls (logged lvl msg exc s) = paste_calls s.
Proof. pose proof (logged_frame lvl msg exc s). tauto. Qed.

Lemma logged_platform lvl msg exc s :
  platform (logged lvl msg exc s) = platform s.
Proof. pose proof (logged_frame lvl msg exc s). tauto. Qed.

Create Rewrite HintDb st.
#[global] Hint Rewrite setup_LOGGER setup_CONSOLE_LEVEL setup_CONSOLE_FORMAT setup_stderr setup_fs setup_syscalls setup_environ setup_CA_BUNDLE setup_paste_calls setup_platform logged_LOGGER logged_LOG_SETUP logged_CONSOLE_LEVEL logged_CONSOLE_FORMAT logged_fs logged_syscalls logged_environ logged_CA_BUNDLE logged_paste_calls logged_platform
  setup_LOG_SETUP : st.

Ltac st_cbn :=
  cbn [_LOGGER handlers _LOG_SETUP _CONSOLE_LEVEL _CONSOLE_FORMAT
       stderr fs syscalls environ _CA_BUNDLE paste_calls platform
       set_handlers set_LOG_SETUP set_CONSOLE set_stderr set_fs
       push_syscall set_environ set_CA_BUNDLE push_paste_call fst snd].

Ltac st_simpl :=
  repeat first
    [ progress st_cbn
    | progress autorewrite with st
    | rewrite setup_done by (repeat first [progress st_cbn
                                          | progress autorewrite with st];
                             reflexivity) ].

Lemma wp_elim {A} (m : M A) (r : res A) (P : State -> Prop) s :
  wp m (fun r' s' => r' = r /\ P s') s -> exists s', m s = (r, s') /\ P s'.
Proof.
  unfold wp. destruct (m s) as [r' s']; simpl. intros [-> H]. eauto.
Qed.

Lemma buffer_line_platform s s' lvl msg exc :
  platform s' = platform s -> buffer_line s' lvl msg exc = buffer_line s lvl msg exc.
Proof. unfold buffer_line. intros ->. reflexivity. Qed.

(** ** Export to a file *)

(** C6. For a state under the setup invariant and a non-empty target path:
    when opening the path for writing and writing the buffer text succeed,
    [buffer_to_logfile] returns the path, the file then holds exactly what
    [get_buffer_contents] returns (an empty buffer gives an empty file);
    when either step fails, the call returns [None] without raising, and
    the exception and the failed path have been logged. *)
Theorem buffer_to_logfile_spec (s : State) (p : string) :
  attached s ->
  OS.nonempty p = true ->
  match OS.write_file (disk_full (platform s)) (fs s) p (buffer_text s) with
  | Ok m =>
      exists s',
        buffer_to_logfile (Some p) s = (Ok (Some p), s') /\
        fs s' = m /\
        OS.read (fs s') p = Some (buffer_text s) /\
        fst (get_buffer_contents s') = Ok (buffer_text s)
  | Raise e =>
      exists s',
        buffer_to_logfile (Some p) s = (Ok None, s') /\
        buffer_text s' =
          buffer_text s +:+ buffer_line s ERROR (Py.str e) (Some e)
                        +:+ buffer_line s ERROR
                              ("Failed to write log file: " +:+ p) None
  end.
Proof.
  intros Ha Hp.
  pose proof (attached_buffer_text s Ha) as Hb.
  pose proof (attached_handlers s Ha) as Hh.
  assert (Hlog : forall e s2,
             handlers s2 = handlers (setup s) -> platform s2 = platform s ->
             buffer_text
               (logged ERROR ("Failed to write log file: " +:+ p) None
                  (logged ERROR (Py.str e) (Some e) s2)) =
             buffer_text s +:+ buffer_line s ERROR (Py.str e) (Some e)
               +:+ buffer_line s ERROR ("Failed to write log file: " +:+ p) None).
  { intros e s2 H2 Hpl. rewrite Hh in H2.
    pose proof (logged_handlers ERROR (Py.str e) (Some e) s2 _ _ _ H2) as H3.
    pose proof (logged_handlers ERROR ("Failed to write log file: " +:+ p)
                  None _ _ _ _ H3) as H4.
    unfold buffer_text at 1. rewrite H4. cbn [find_buffer buffer_handler name hstream String.eqb Ascii.eqb Bool.eqb].
    rewrite string_app_assoc.
    rewrite (buffer_line_platform s s2) by auto.
    rewrite (buffer_line_platform s (logged _ _ _ s2)) by (st_simpl; auto).
    reflexivity. }
  unfold OS.write_file.
  destruct (OS.open_w (fs s) p) as [m1|e] eqn:Ho.
  - destruct (OS.write _ m1 p _) as [m|e] eqn:Hw.
    + apply wp_elim. unfold buffer_to_logfile. wp_steps. rewrite Hp. wp_steps.
      st_simpl. rewrite Ho. wp_steps. apply wp_get_buffer_contents. st_simpl.
      rewrite Hb. wp_steps. apply wp_file_write. st_simpl. rewrite Hw.
      wp_steps. st_simpl. split; [reflexivity|]. split; [reflexivity|].
      split; [eapply write_read; eauto|].
      rewrite get_buffer_contents_eq. st_simpl. exact Hb.
    + apply wp_elim. unfold buffer_to_logfile. wp_steps. rewrite Hp. wp_steps.
      st_simpl. rewrite Ho. wp_steps. apply wp_get_buffer_contents. st_simpl.
      rewrite Hb. wp_steps. apply wp_file_write. st_simpl. rewrite Hw.
      rewrite (write_OSError _ _ _ _ _ Hw). wp_steps. st_simpl.
      split; [reflexivity|]. apply Hlog; st_simpl; reflexivity.
  - apply wp_elim. unfold buffer_to_logfile. wp_steps. rewrite Hp. wp_steps.
    st_simpl. rewrite Ho. rewrite (open_w_OSError _ _ _ Ho). wp_steps.
    split; [reflexivity|]. apply Hlog; st_simpl; reflexivity.
Qed.

Lemma buffer_to_logfile_spec_witness :
  exists s',
    buffer_to_logfile (Some "/var/tmp/out.log") (initial lab_linux fs_good ∅ "") =
      (Ok (Some "/var/tmp/out.log"), s') /\
    fs s' = <["/var/tmp/out.log" := OS.File true ""]> fs_good /\
    OS.read (fs s') "/var/tmp/out.log" = Some "" /\
    fst (get_buffer_contents s') = Ok "".
Proof.
  exact (buffer_to_logfile_spec (initial lab_linux fs_good ∅ "")
           "/var/tmp/out.log" eq_refl eq_refl).
Defined.

(** ** CA bundle discovery *)

Lemma add_cacert_loop_eq paths s :
  add_cacert_loop paths s =
  (Ok (), match find (OS.isfile (fs s)) paths with
          | Some p => set_CA_BUNDLE p s
          | None => s
          end).
Proof.
  induction paths as [|p paths IH]; [reflexivity|].
  simpl. unfold mbind, M_bind, gets at 1.
  destruct (OS.isfile (fs s) p); [reflexivity|exact IH].
Qed.

(** C8. [add_cacert_paths] never fails and changes at most the client's
    bundle path: the path stays when it names an existing file; otherwise
    it becomes the first entry of [cacert_paths] that names an existing
    file, and stays when no entry does. *)
Theorem add_cacert_paths_spec (s : State) :
  add_cacert_paths s =
  (Ok (),
   if OS.isfile (fs s) (_CA_BUNDLE s) then s
   else match find (OS.isfile (fs s)) cacert_paths with
        | Some p => set_CA_BUNDLE p s
        | None => s
        end).
Proof.
  unfold add_cacert_paths, mbind, M_bind, gets.
  destruct (OS.isfile (fs s) (_CA_BUNDLE s)); [reflexivity|].
  apply add_cacert_loop_eq.
Qed.

(** ** [make_logfile] inside [buffer_to_logfile] *)

Lemma buffer_to_logfile_no_path path s :
  path = None \/ path = Some "" ->
  buffer_to_logfile path s =
  match make_logfile (setup s) with
  | (Ok p, s1) =>
      try_except
        (open_w p;;
         contents ← get_buffer_contents;
         file_write p contents;;
         mret (Some p))
        is_OSError
        (fun e =>
           Logger_exception (_LOGGER s) e;;
           Logger_error (_LOGGER s) ("Failed to write log file: " +:+ p);;
           mret None) s1
  | (Raise e, s1) => (Raise e, s1)
  end.
Proof.
  intros [-> | ->]; unfold buffer_to_logfile;
    unfold mbind at 1, M_bind at 1; rewrite get_logger_eq;
    cbn [OS.nonempty]; unfold mbind at 1, M_bind at 1;
    destruct (make_logfile (setup s)) as [[p|e] s1]; reflexivity.
Qed.

(** The name [make_logfile] asks [mkstemp] for. *)
Lemma make_logfile_collision s d s1 :
  get_logdir s = (Ok d, s1) ->
  let file := OS.join d ("fmld." +:+ node (platform s1) +:+
                         "." +:+ strftime_now (platform s) +:+ ".out") in
  OS.exists_ (fs s1) file = true ->
  make_logfile s = (Raise StopIteration, push_syscall (OS.SysOpenExcl file) s1).
Proof.
  intros Hd file Hex. unfold make_logfile.
  unfold mbind at 1, M_bind at 1, gets at 1.
  unfold mbind at 1, M_bind at 1. rewrite Hd.
  unfold mbind at 1, M_bind at 1, gets at 1.
  cbn [_mkstemp_inner]. change (TMP_MAX <=? 0)%N with false. cbv iota.
  unfold try_except_else, os_open_excl, sys. st_cbn.
  fold file. unfold OS.open_excl. unfold OS.exists_ in Hex.
  destruct (fs s1 !! file); [|discriminate]. reflexivity.
Qed.

(** C10. Called without a path (or with the empty string),
    [buffer_to_logfile] runs [make_logfile] before its [try] block: an
    exception of [make_logfile] is the outcome of [buffer_to_logfile],
    whatever its class, and never [None].  This is what happens when the
    file named after the host and the current second exists already:
    [mkstemp] has no second candidate name and raises. *)
Theorem buffer_to_logfile_propagates_make_logfile (s : State) (path : option string) :
  path = None \/ path = Some "" ->
  (forall e s1,
     make_logfile (setup s) = (Raise e, s1) ->
     buffer_to_logfile path s = (Raise e, s1)) /\
  (forall d s1,
     get_logdir (setup s) = (Ok d, s1) ->
     let file := OS.join d ("fmld." +:+ node (platform s1) +:+
                            "." +:+ strftime_now (platform s) +:+ ".out") in
     OS.exists_ (fs s1) file = true ->
     buffer_to_logfile path s =
       (Raise StopIteration, push_syscall (OS.SysOpenExcl file) s1)).
Proof.
  intros Hp. split.
  - intros e s1 H. rewrite buffer_to_logfile_no_path, H by auto. reflexivity.
  - intros d s1 Hd file Hex.
    rewrite buffer_to_logfile_no_path by auto.
    rewrite (make_logfile_collision (setup s) d s1 Hd);
      rewrite setup_platform; [reflexivity|exact Hex].
Qed.

(** ** The temp directory *)

Lemma environ_restored (env : gmap string string) :
  (list_to_map
     (omap (fun k => (fun v => (k, v)) <$> env !! k) ["TMPDIR"; "TEMP"; "TMP"])
   : gmap string string)
  ∪ foldr delete env ["TMPDIR"; "TEMP"; "TMP"] = env.
Proof.
  apply map_eq. intros k. cbn [omap list_omap foldr].
  destruct (env !! "TMPDIR") as [v1|] eqn:E1;
    destruct (env !! "TEMP") as [v2|] eqn:E2;
    destruct (env !! "TMP") as [v3|] eqn:E3;
    cbn [fmap option_fmap option_map list_to_map foldr uncurry curry fst snd];
    destruct (decide (k = "TMPDIR")) as [H1|N1];
    destruct (decide (k = "TEMP")) as [H2|N2];
    destruct (decide (k = "TMP")) as [H3|N3];
    try (subst; discriminate); subst;
    rewrite lookup_union;
    repeat first [rewrite lookup_insert_eq | rewrite lookup_insert_ne by congruence
                 | rewrite lookup_delete_eq | rewrite lookup_delete_ne by congruence
                 | rewrite lookup_empty ];
    rewrite ?E1, ?E2, ?E3; try reflexivity;
    try (match goal with |- None ∪ ?x = ?x => destruct x; reflexivity end).
Qed.

Lemma gettempdir_default (env : gmap string string) dflt :
  OS.gettempdir (foldr delete env ["TMPDIR"; "TEMP"; "TMP"]) dflt = dflt.
Proof.
  unfold OS.gettempdir. cbn [foldr omap list_omap].
  rewrite lookup_delete_eq.
  rewrite lookup_delete_ne, lookup_delete_eq by discriminate.
  rewrite !lookup_delete_ne, lookup_delete_eq by discriminate.
  reflexivity.
Qed.

(** [get_tempdir] answers with the platform's own temp directory, whatever
    TMPDIR, TEMP and TMP say, and leaves the environment as it found it. *)
Lemma get_tempdir_eq s : get_tempdir s = (Ok (default_tempdir (platform s)), s).
Proof.
  unfold get_tempdir, mbind, M_bind, gets, modify. st_cbn.
  rewrite gettempdir_default, environ_restored.
  destruct s; reflexivity.
Qed.

Lemma wp_get_tempdir Q s :
  Q (Ok (default_tempdir (platform s))) s -> wp get_tempdir Q s.
Proof. unfold wp. rewrite get_tempdir_eq. auto. Qed.

(** ** What a function leaves in place *)

Lemma follows_refl P s : follows P s s.
Proof.
  unfold follows. repeat split; auto. exists []. rewrite app_nil_r. auto.
Qed.

Lemma follows_trans P s1 s2 s3 :
  follows P s1 s2 -> follows P s2 s3 -> follows P s1 s3.
Proof.
  intros (Hp & He & HL & Ha & Hs & l & Hl & HP)
         (Hp' & He' & HL' & Ha' & Hs' & l' & Hl' & HP').
  unfold follows. repeat split; try congruence; auto.
  exists (l ++ l')%list. rewrite Hl', Hl, app_assoc. split; [reflexivity|].
  apply Forall_app; auto.
Qed.

Lemma follows_weaken (P P' : OS.syscall -> Prop) s s' :
  (forall c, P c -> P' c) -> follows P s s' -> follows P' s s'.
Proof.
  intros H (Hp & He & HL & Ha & Hs & l & Hl & HP).
  unfold follows. repeat split; auto.
  exists l. split; [exact Hl|]. eapply Forall_impl; eauto.
Qed.

Lemma follows_setup P s s' : follows P s s' -> follows P s (setup s').
Proof.
  intros H. eapply follows_trans; [exact H|].
  unfold follows. st_simpl. repeat split; auto using attached_setup.
  exists []. rewrite app_nil_r. auto.
Qed.

Lemma follows_logged P lvl msg exc s s' :
  follows P s s' -> follows P s (logged lvl msg exc s').
Proof.
  intros H. eapply follows_trans; [exact H|].
  unfold follows. st_simpl. repeat split; auto using attached_logged.
  exists []. rewrite app_nil_r. auto.
Qed.

Lemma follows_set_fs P m s s' : follows P s s' -> follows P s (set_fs m s').
Proof. exact (fun H => H). Qed.

Lemma follows_set_CA_BUNDLE P b s s' :
  follows P s s' -> follows P s (set_CA_BUNDLE b s').
Proof. exact (fun H => H). Qed.

Lemma follows_push_paste_call P c s s' :
  follows P s s' -> follows P s (push_paste_call c s').
Proof. exact (fun H => H). Qed.

Lemma follows_push_syscall (P : OS.syscall -> Prop) c s s' :
  P c -> follows P s s' -> follows P s (push_syscall c s').
Proof.
  intros Hc H. eapply follows_trans; [exact H|].
  unfold follows. st_cbn. repeat split; auto.
  exists [c]. auto.
Qed.

Ltac follows_tac :=
  repeat first
    [ apply follows_refl
    | assumption
    | apply follows_setup
    | apply follows_logged
    | apply follows_set_fs
    | apply follows_set_CA_BUNDLE
    | apply follows_push_paste_call
    | apply follows_push_syscall; [cbn; auto|] ].

(** ** The write test *)

(** [write_testfile] answers [True] or [False] and never raises; it
    touches the filesystem and the log, and every file operation it issues
    is on the path it was given. *)
Lemma wp_write_testfile p (Q : res bool -> State -> Prop) s :
  (forall b s',
     follows (fun c => OS.syscall_path c = p) s s' ->
     _LOG_SETUP s' = true ->
     Q (Ok b) s') ->
  wp (write_testfile p) Q s.
Proof.
  intros HQ. unfold write_testfile. wp_steps. st_simpl.
  destruct (OS.open_w (fs s) p) as [m1|e] eqn:Ho.
  - wp_steps. apply wp_file_write. st_simpl.
    destruct (OS.write _ m1 p _) as [m2|e] eqn:Hw.
    + wp_steps. st_simpl.
      destruct (OS.remove m2 p) as [m3|e] eqn:Hr.
      * wp_steps. apply HQ; [follows_tac|st_simpl; reflexivity].
      * destruct (is_FileNotFoundError e) eqn:Hn.
        -- wp_steps. apply HQ; [follows_tac|st_simpl; reflexivity].
        -- rewrite (remove_OSError _ _ _ Hr). wp_steps.
           apply HQ; [follows_tac|st_simpl; reflexivity].
    + rewrite (write_OSError _ _ _ _ _ Hw). wp_steps.
      apply HQ; [follows_tac|st_simpl; reflexivity].
  - rewrite (open_w_OSError _ _ _ Ho). wp_steps.
    apply HQ; [follows_tac|st_simpl; reflexivity].
Qed.

(** ** The log directory *)

Lemma wp_ex {A} (m : M A) (P : A -> Prop) s :
  wp m (fun r _ => exists a, r = Ok a /\ P a) s ->
  exists a s', m s = (Ok a, s') /\ P a.
Proof.
  unfold wp. destruct (m s) as [r s']; simpl. intros (a & -> & H). eauto.
Qed.

Lemma get_logdir_unfold :
  get_logdir =
  (LOG ← get_logger;
   syslogdir ← (fun s => match _LOG_DIR (platform s) with
                         | Some d => (Ok d, s)
                         | None => (Raise NameError, s)
                         end);
   let logdir := syslogdir in
   is_dir ← gets (fun s => OS.isdir (fs s) logdir);
   use_tempdir ←
     (if negb is_dir then
        Logger_debug LOG ("Log directory " +:+ logdir +:+ " is not directory");;
        exists_ ← gets (fun s => OS.exists_ (fs s) logdir);
        if exists_ : bool then
          Logger_error LOG
            ("Log directory " +:+ logdir +:+ " exists and is not directory");;
          mret true
        else
          Logger_debug LOG
            ("Log directory " +:+ logdir +:+ " does not exist. Creating it");;
          try_except_else (os_makedirs logdir) is_PermissionError
            (fun _ =>
               Logger_info LOG
                 ("Log directory " +:+ logdir +:+
                  " does not exist. Insufficient permissions to create it");;
               mret true)
            (fun _ =>
               Logger_warning LOG
                 ("Please verify permissions of " +:+ logdir +:+ " are correct");;
               mret false)
      else mret false);
   get_logdir_probe LOG syslogdir use_tempdir).
Proof. reflexivity. Qed.

(** The second half returns the system directory or the temp directory,
    and the temp directory when [use_tempdir] is set; it raises nothing,
    and its file operations are all on the marker file of the system
    directory. *)
Lemma wp_get_logdir_probe LOG d (use_tempdir : bool) (P : string -> Prop) s :
  (use_tempdir = false -> P d) ->
  P (default_tempdir (platform s)) ->
  wp (get_logdir_probe LOG d use_tempdir)
    (fun r s' =>
       (exists a, r = Ok a /\ P a) /\
       follows (fun c => OS.syscall_path c = d +:+ "/fmld.testfile") s s') s.
Proof.
  intros Hd Ht.
  assert (Hfb : forall s1,
    follows (fun c => OS.syscall_path c = d +:+ "/fmld.testfile") s s1 ->
    wp (logdir ← get_tempdir;
        Logger_debug LOG ("Logging to temporary log directory " +:+ logdir);;
        ok ← write_testfile (d +:+ "/fmld.testfile");
        (if negb ok then
           Logger_error LOG
             "Failed to write log file: Failed to write to {syslogdir} and {logdir}"
         else mret ());;
        mret logdir)
      (fun r s' =>
         (exists a, r = Ok a /\ P a) /\
         follows (fun c => OS.syscall_path c = d +:+ "/fmld.testfile") s s') s1).
  { intros s1 H1. wp_steps. apply wp_get_tempdir. wp_steps.
    apply wp_write_testfile. intros b s2 H2 _.
    assert (H3 : follows (fun c => OS.syscall_path c = d +:+ "/fmld.testfile")
                   s s2).
    { eapply follows_trans; [|exact H2]. follows_tac. }
    destruct H1 as [H1 _].
    destruct b; cbn [negb]; wp_steps; rewrite H1;
      (split; [eauto|follows_tac]). }
  unfold get_logdir_probe. wp_steps. destruct use_tempdir.
  - wp_steps. apply Hfb. follows_tac.
  - wp_steps. apply wp_write_testfile. intros b s1 H1 _. wp_steps.
    destruct b; cbn [negb].
    + wp_steps. split; [eauto|follows_tac].
    + apply Hfb. exact H1.
Qed.

Lemma wp_get_logdir_probe_result LOG d (use_tempdir : bool)
    (P : string -> Prop) s :
  (use_tempdir = false -> P d) ->
  P (default_tempdir (platform s)) ->
  wp (get_logdir_probe LOG d use_tempdir)
    (fun r _ => exists a, r = Ok a /\ P a) s.
Proof.
  intros Hd Ht. eapply wp_mono; [|apply wp_get_logdir_probe; eauto].
  intros r s' [H _]. exact H.
Qed.

(** Whatever its outcome, [get_logdir] keeps to the system log path: every
    file operation it issues is on that path or on its marker file. *)
Lemma get_logdir_follows s :
  follows (logdir_syscall (platform s)) s (snd (get_logdir s)).
Proof.
  change (wp get_logdir
            (fun _ s' => follows (logdir_syscall (platform s)) s s') s).
  rewrite get_logdir_unfold. wp_step. wp_step. wp_step.
  unfold wp at 1. st_simpl. unfold logdir_syscall.
  destruct (_LOG_DIR (platform s)) as [d|] eqn:Hd; cbn [fst snd];
    [|follows_tac].
  assert (Hprobe : forall LOG u s1,
    follows (fun c => OS.syscall_path c = d \/
                      OS.syscall_path c = d +:+ "/fmld.testfile") s s1 ->
    wp (get_logdir_probe LOG d u)
      (fun _ s' =>
         follows (fun c => OS.syscall_path c = d \/
                           OS.syscall_path c = d +:+ "/fmld.testfile") s s') s1).
  { intros LOG u s1 H1.
    eapply wp_mono;
      [|apply (wp_get_logdir_probe LOG d u (fun _ => True)); auto].
    intros r s' [_ H]. eapply follows_trans; [exact H1|].
    eapply follows_weaken; [|exact H]. cbn. auto. }
  wp_steps. st_simpl.
  destruct (OS.isdir (fs s) d); cbn [negb].
  - wp_steps. apply Hprobe. follows_tac.
  - wp_steps. st_simpl. destruct (OS.exists_ (fs s) d).
    + wp_steps. apply Hprobe. follows_tac.
    + wp_steps. st_simpl.
      destruct (OS.makedirs (fs s) d) as [m|e].
      * wp_steps. apply Hprobe. follows_tac.
      * destruct (is_PermissionError e).
        -- wp_steps. apply Hprobe. follows_tac.
        -- follows_tac.
Qed.




(** ** Export to a paste *)

Lemma add_cacert_paths_eq s :
  add_cacert_paths s = (Ok (), set_CA_BUNDLE (discovered_bundle s) s).
Proof.
  unfold add_cacert_paths, mbind, M_bind, gets, discovered_bundle.
  destruct (OS.isfile (fs s) (_CA_BUNDLE s)); [destruct s; reflexivity|].
  cbn [negb]. rewrite add_cacert_loop_eq.
  destruct (find _ cacert_paths); destruct s; reflexivity.
Qed.

Lemma wp_add_cacert_paths Q s :
  Q (Ok ()) (set_CA_BUNDLE (discovered_bundle s) s) -> wp add_cacert_paths Q s.
Proof. unfold wp. rewrite add_cacert_paths_eq. auto. Qed.

Lemma discovered_bundle_setup s : discovered_bundle (setup s) = discovered_bundle s.
Proof. unfold discovered_bundle. st_simpl. reflexivity. Qed.

Lemma nonempty_false (a : string) : OS.nonempty a = false <-> a = "".
Proof. destruct a; simpl; split; congruence. Qed.

(** C7. Under the setup invariant: with an empty buffer
    [buffer_log_to_paste] returns [None] and the paste service is not
    called; with a non-empty buffer the service is called once, with
    exactly the buffer text (and the discovered CA bundle), and then a link
    is returned as it is, while an exception of class [Exception] is
    logged at DEBUG level and turned into [None]. *)
Theorem buffer_log_to_paste_spec (s : State) :
  attached s ->
  (buffer_text s = "" ->
   fst (buffer_log_to_paste s) = Ok None /\
   paste_calls (snd (buffer_log_to_paste s)) = paste_calls s) /\
  (buffer_text s <> "" ->
   paste_calls (snd (buffer_log_to_paste s)) =
     (paste_calls s ++
      [{| pc_bundle := discovered_bundle s; pc_content := buffer_text s;
          pc_permanent := false; pc_color := false |}])%list /\
   match everpaste_create (platform s) _APP_ID _APP_TOKEN
           (discovered_bundle s) (buffer_text s) false false with
   | Ok link => fst (buffer_log_to_paste s) = Ok (Some link)
   | Raise e =>
       is_Exception e = true ->
       fst (buffer_log_to_paste s) = Ok None /\
       buffer_text (snd (buffer_log_to_paste s)) =
         buffer_text s +:+
         buffer_line s DEBUG ("Failed to create paste: " +:+ Py.str e) None
   end).
Proof.
  intros Ha.
  pose proof (attached_buffer_text s Ha) as Hb.
  pose proof (attached_handlers s Ha) as Hh.
  split.
  - intros He.
    change (wp buffer_log_to_paste
              (fun r s' => r = Ok None /\ paste_calls s' = paste_calls s) s).
    unfold buffer_log_to_paste. wp_step. apply wp_get_buffer_contents.
    rewrite Hb, He. cbn. wp_steps. st_simpl. auto.
  - intros He.
    assert (Hn : OS.nonempty (buffer_text s) = true).
    { destruct (OS.nonempty (buffer_text s)) eqn:E; [reflexivity|].
      apply nonempty_false in E. contradiction. }
    change (wp buffer_log_to_paste
              (fun r s' =>
                 paste_calls s' =
                   (paste_calls s ++
                    [{| pc_bundle := discovered_bundle s;
                        pc_content := buffer_text s;
                        pc_permanent := false; pc_color := false |}])%list /\
                 match everpaste_create (platform s) _APP_ID _APP_TOKEN
                         (discovered_bundle s) (buffer_text s) false false with
                 | Ok link => r = Ok (Some link)
                 | Raise e =>
                     is_Exception e = true ->
                     r = Ok None /\
                     buffer_text s' =
                       buffer_text s +:+
                       buffer_line s DEBUG
                         ("Failed to create paste: " +:+ Py.str e) None
                 end) s).
    unfold buffer_log_to_paste. wp_step. apply wp_get_buffer_contents.
    rewrite Hb. cbv beta iota. rewrite Hn.
    unfold create_paste. wp_steps. apply wp_add_cacert_paths.
    wp_steps. unfold wp at 1, EverPaste_create. st_simpl.
    rewrite discovered_bundle_setup.
    destruct (everpaste_create _ _ _ _ _ _ _) as [link|e]; st_simpl.
    + wp_steps. st_simpl. auto.
    + destruct (is_Exception e); [|split; [reflexivity|discriminate]].
      wp_steps. st_simpl. split; [reflexivity|]. intros _.
      split; [reflexivity|].
      unfold buffer_text at 1.
      erewrite logged_handlers by (st_simpl; exact Hh).
      cbn [find_buffer buffer_handler name hstream String.eqb Ascii.eqb Bool.eqb].
      rewrite (buffer_line_platform s) by (st_simpl; reflexivity).
      reflexivity.
Qed.

Lemma buffer_log_to_paste_spec_witness :
  let s := run_calls [Log INFO "hello"] (initial lab_offline fs_good ∅ "") in
  fst (buffer_log_to_paste s) = Ok None /\
  paste_calls (snd (buffer_log_to_paste s)) =
    [{| pc_bundle := ""; pc_content := buffer_text s;
        pc_permanent := false; pc_color := false |}].
Proof.
  intros s.
  destruct (buffer_log_to_paste_spec s) as [_ H].
  { vm_compute. eexists. reflexivity. }
  destruct H as [Hc Hr]; [discriminate|].
  split; [apply (Hr eq_refl)|exact Hc].
Defined.

(** ** [get_buffer_contents] *)




Lemma buffer_to_logfile_propagates_make_logfile_witness :
  buffer_to_logfile None (initial lab_linux fs_logfile_taken ∅ "") =
  (Raise StopIteration,
   push_syscall (OS.SysOpenExcl "/var/tmp/fmld.lab01.20240102.030405.out")
     (snd (get_logdir (setup (initial lab_linux fs_logfile_taken ∅ ""))))).
Proof.
  destruct (buffer_to_logfile_propagates_make_logfile
              (initial lab_linux fs_logfile_taken ∅ "") None (or_introl eq_refl))
    as [_ H].
  apply (H "/var/tmp"
           (snd (get_logdir (setup (initial lab_linux fs_logfile_taken ∅ ""))))).
  - vm_compute. reflexivity.
  - vm_compute. reflexivity.
Defined.

(** ** The fallback write test *)

(** C2 fails on the code.  Whatever the state, every file operation of
    [get_logdir] is on the system log path or on the marker file under it,
    also after the switch to the temp directory: the second write test is
    made on the marker path computed before the switch.  So with
    [/var/tmp] a regular file and [/tmp] a writable directory,
    [get_logdir] returns [/tmp] without a file operation under [/tmp], and
    logs the error meant for an unusable temp directory although a marker
    can be written there. *)
Theorem get_logdir_fallback_tests_stale_path :
  (forall s d,
     _LOG_DIR (platform s) = Some d ->
     exists l,
       syscalls (snd (get_logdir s)) = (syscalls s ++ l)%list /\
       Forall (fun c => OS.syscall_path c = d \/
                        OS.syscall_path c = d +:+ "/fmld.testfile") l) /\
  (let s := initial lab_linux fs_logdir_is_file ∅ "" in
   let s' := snd (get_logdir s) in
   fst (get_logdir s) = Ok "/tmp" /\
   syscalls s' = [OS.SysOpenW "/var/tmp/fmld.testfile"] /\
   fs s' = fs s /\
   stderr s' =
     "Log directory /var/tmp exists and is not directory" +:+ nl +:+
     "Failed to write log file: Failed to write to {syslogdir} and {logdir}"
     +:+ nl /\
   fst (write_testfile "/tmp/fmld.testfile" s') = Ok true).
Proof.
  split.
  - intros s d Hd.
    destruct (get_logdir_follows s) as (_ & _ & _ & _ & _ & l & Hl & HP).
    unfold logdir_syscall in HP. rewrite Hd in HP. eauto.
  - vm_compute. repeat split; reflexivity.
Qed.

Lemma get_logdir_fallback_tests_stale_path_witness :
  exists l,
    syscalls (snd (get_logdir (initial lab_linux fs_var_readonly ∅ ""))) = l /\
    Forall (fun c => OS.syscall_path c = "/var/tmp" \/
                     OS.syscall_path c = "/var/tmp/fmld.testfile") l.
Proof.
  destruct get_logdir_fallback_tests_stale_path as [H _].
  exact (H (initial lab_linux fs_var_readonly ∅ "") "/var/tmp" eq_refl).
Defined.

(** ** The setup invariant is kept by every function *)

Lemma mkstemp_follows names : forall seq dir pre suf s0 s,
  follows (fun _ => True) s0 s ->
  wp (_mkstemp_inner seq names dir pre suf)
    (fun _ s' => follows (fun _ => True) s0 s') s.
Proof.
  induction names as [|name names IH]; intros seq dir pre suf s0 s H;
    cbn [_mkstemp_inner]; destruct (TMP_MAX <=? seq)%N; wp_steps; auto.
  destruct (OS.open_excl (fs s) _) as [m|e]; [wp_steps; follows_tac|].
  destruct (is_FileExistsError e || is_PermissionError e); [|follows_tac].
  destruct (is_FileExistsError e); [apply IH; follows_tac|].
  wp_steps. st_simpl.
  destruct (is_windows (platform s) && OS.isdir (fs s) dir
            && OS.access_w (fs s) dir);
    [apply IH|wp_steps]; follows_tac.
Qed.

Lemma make_logfile_follows s :
  follows (fun _ => True) s (snd (make_logfile s)).
Proof.
  change (wp make_logfile (fun _ s' => follows (fun _ => True) s s') s).
  unfold make_logfile. wp_steps.
  assert (H : follows (fun _ => True) s (snd (get_logdir s))).
  { eapply follows_weaken; [|apply get_logdir_follows]. auto. }
  unfold wp at 1. destruct (get_logdir s) as [[d|e] s1]; cbn [fst snd] in *;
    [|exact H].
  wp_steps. apply mkstemp_follows. exact H.
Qed.

Lemma buffer_to_logfile_follows path s :
  follows (fun _ => True) s (snd (buffer_to_logfile path s)).
Proof.
  assert (Hw : forall p s1,
    follows (fun _ => True) s s1 ->
    wp (try_except
          (open_w p;;
           contents ← get_buffer_contents;
           file_write p contents;;
           mret (Some p))
          is_OSError
          (fun e =>
             Logger_exception (_LOGGER s) e;;
             Logger_error (_LOGGER s) ("Failed to write log file: " +:+ p);;
             mret None))
      (fun _ s' => follows (fun _ => True) s s') s1).
  { intros p s1 H1. wp_steps.
    destruct (OS.open_w (fs s1) p) as [m|e].
    - wp_steps. apply wp_get_buffer_contents.
      destruct (find_buffer _) as [contents|e].
      + wp_steps. apply wp_file_write. st_simpl.
        destruct (OS.write _ _ p contents) as [m'|e].
        * wp_steps. follows_tac.
        * destruct (is_OSError e); wp_steps; follows_tac.
      + destruct (is_OSError e); wp_steps; follows_tac.
    - destruct (is_OSError e); wp_steps; follows_tac. }
  assert (Hm : follows (fun _ => True) s (snd (make_logfile (setup s)))).
  { eapply follows_trans; [|apply make_logfile_follows]. follows_tac. }
  change (wp (buffer_to_logfile path)
            (fun _ s' => follows (fun _ => True) s s') s).
  unfold buffer_to_logfile. wp_step. wp_step. wp_step.
  assert (Hn : wp make_logfile
                 (fun r s' =>
                    match r with
                    | Ok p =>
                        wp (try_except
                              (open_w p;;
                               contents ← get_buffer_contents;
                               file_write p contents;;
                               mret (Some p))
                              is_OSError
                              (fun e =>
                                 Logger_exception (_LOGGER s) e;;
                                 Logger_error (_LOGGER s)
                                   ("Failed to write log file: " +:+ p);;
                                 mret None))
                          (fun _ s' => follows (fun _ => True) s s') s'
                    | Raise _ => follows (fun _ => True) s s'
                    end) (setup s)).
  { unfold wp at 1.
    destruct (make_logfile (setup s)) as [[p|e] s1]; cbn [fst snd] in *;
      [apply Hw|]; exact Hm. }
  destruct path as [p|]; [destruct (OS.nonempty p)|]; try exact Hn.
  wp_step. apply Hw. follows_tac.
Qed.

Lemma buffer_log_to_paste_follows s :
  follows (fun _ => True) s (snd (buffer_log_to_paste s)).
Proof.
  change (wp buffer_log_to_paste (fun _ s' => follows (fun _ => True) s s') s).
  unfold buffer_log_to_paste. wp_step. apply wp_get_buffer_contents.
  destruct (find_buffer _) as [contents|e]; [|follows_tac].
  cbv beta iota. destruct (OS.nonempty contents); [|wp_steps; follows_tac].
  unfold create_paste. wp_steps. apply wp_add_cacert_paths.
  wp_steps. unfold wp at 1, EverPaste_create. st_simpl.
  destruct (everpaste_create _ _ _ _ _ _ _) as [link|e]; cbn [fst snd].
  - wp_steps. follows_tac.
  - destruct (is_Exception e); wp_steps; follows_tac.
Qed.

(** The setup invariant holds of the module after import and after every
    call of its functions, so the statements above that assume it speak of
    every state the module can be in. *)
Lemma attached_kept s :
  attached s ->
  attached (snd (get_logger s)) /\
  attached (snd (enable_debug s)) /\
  attached (snd (disable_debug s)) /\
  attached (snd (get_buffer_contents s)) /\
  attached (snd (get_logdir s)) /\
  attached (snd (make_logfile s)) /\
  (forall path, attached (snd (buffer_to_logfile path s))) /\
  attached (snd (buffer_log_to_paste s)).
Proof.
  intros H.
  split; [apply (run_call_spec GetLogger s H)|].
  split; [apply (run_call_spec EnableDebug s H)|].
  split; [apply (run_call_spec DisableDebug s H)|].
  split; [apply (run_call_spec GetBufferContents s H)|].
  split; [apply (get_logdir_follows s); exact H|].
  split; [apply (make_logfile_follows s); exact H|].
  split; [intros path; apply (buffer_to_logfile_follows path s); exact H|].
  apply (buffer_log_to_paste_follows s); exact H.
Qed.

(** ** [os.makedirs] does not depend on its fuel *)

Lemma rsplit_length s h t :
  OS.rsplit s = Some (h, t) -> String.length h + String.length t = String.length s.
Proof.
  revert h t. induction s as [|c s IH]; intros h t; cbn [OS.rsplit];
    [discriminate|].
  destruct (OS.rsplit s) as [[h' t']|].
  - intros [= <- <-]. cbn [String.length]. rewrite <- (IH h' t') by reflexivity.
    lia.
  - destruct (OS.is_slash c); [|discriminate].
    intros [= <- <-]. reflexivity.
Qed.

Lemma rstrip_slash_length s :
  String.length (OS.rstrip_slash s) <= String.length s.
Proof.
  induction s as [|c s IH]; cbn [OS.rstrip_slash String.length]; [lia|].
  destruct (OS.rstrip_slash s); [destruct (OS.is_slash c)|];
    cbn [String.length] in *; lia.
Qed.

Lemma split_length p :
  String.length (OS.split p).1 + String.length (OS.split p).2
  <= String.length p.
Proof.
  unfold OS.split.
  destruct (OS.rsplit p) as [[h t]|] eqn:E; cbn [default from_option id].
  - apply rsplit_length in E.
    pose proof (rstrip_slash_length h).
    destruct (OS.nonempty h && negb (OS.all_slashes h)); cbn [fst snd]; lia.
  - cbn. lia.
Qed.

Lemma makedirs_split_shorter name head tail :
  OS.makedirs_split name = (head, tail) ->
  OS.nonempty tail = true ->
  String.length head < String.length name.
Proof.
  unfold OS.makedirs_split.
  pose proof (split_length name) as H1.
  destruct (OS.split name) as [h1 t1]. cbn [fst snd] in H1.
  destruct (OS.nonempty t1) eqn:E1.
  - intros [= <- <-] _. destruct t1; [discriminate|].
    cbn [String.length] in H1. lia.
  - pose proof (split_length h1) as H2. intros E2 E3. rewrite E2 in H2.
    cbn [fst snd] in H2. destruct tail; [discriminate|].
    cbn [String.length] in H2. lia.
Qed.

Lemma makedirs_rec_fuel fuel1 : forall fuel2 m name,
  String.length name <= fuel1 ->
  String.length name <= fuel2 ->
  OS.makedirs_rec fuel1 m name = OS.makedirs_rec fuel2 m name.
Proof.
  induction fuel1 as [|fuel1 IH]; intros fuel2 m name H1 H2.
  - destruct name; [|cbn [String.length] in H1; lia].
    destruct fuel2; reflexivity.
  - destruct fuel2 as [|fuel2].
    + destruct name; [reflexivity|cbn [String.length] in H2; lia].
    + cbn [OS.makedirs_rec].
      destruct (OS.makedirs_split name) as [head tail] eqn:E.
      destruct (OS.nonempty head && OS.nonempty tail
                && negb (OS.exists_ m head)) eqn:C; [|reflexivity].
      assert (OS.nonempty tail = true) as Ht.
      { destruct (OS.nonempty head), (OS.nonempty tail); auto. }
      pose proof (makedirs_split_shorter _ _ _ E Ht).
      rewrite (IH fuel2 m head) by lia. reflexivity.
Qed.

(** More fuel than the length of the path changes nothing: the model of
    [os.makedirs] never stops for lack of fuel. *)
Lemma makedirs_fuel fuel m name :
  String.length name <= fuel ->
  OS.makedirs_rec fuel m name = OS.makedirs m name.
Proof. intros H. apply makedirs_rec_fuel; auto. Qed.

(** ** The model on small inputs *)

Example split_examples :
  OS.split "/var/tmp/fmld.testfile" = ("/var/tmp", "fmld.testfile") /\
  OS.split "/var" = ("/", "var") /\
  OS.split "/" = ("/", "") /\
  OS.split "tmp" = ("", "tmp") /\
  OS.split "/a//b/" = ("/a//b", "").
Proof. repeat split; reflexivity. Qed.

Example makedirs_creates_parents :
  OS.makedirs (<["/" := OS.Dir true]> ∅) "/var/log" =
  Ok (<["/var/log" := OS.Dir true]>
        (<["/var" := OS.Dir true]> (<["/" := OS.Dir true]> ∅))).
Proof. vm_compute. reflexivity. Qed.

Example makedirs_outcomes :
  OS.makedirs fs_var_is_file "/var/tmp" = Raise NotADirectoryError /\
  OS.makedirs fs_var_readonly "/var/tmp" = Raise PermissionError /\
  OS.makedirs fs_good "/var/tmp" = Raise FileExistsError.
Proof. vm_compute. repeat split; reflexivity. Qed.

Example get_tempdir_ignores_TMPDIR :
  get_tempdir (initial lab_linux fs_good (<["TMPDIR" := "/home/u/tmp"]> ∅) "") =
  (Ok "/tmp", initial lab_linux fs_good (<["TMPDIR" := "/home/u/tmp"]> ∅) "").
Proof. apply get_tempdir_eq. Qed.

Example log_lines :
  let s := run_calls [Log INFO "hello"; Log DEBUG "detail"]
             (initial lab_linux fs_good ∅ "") in
  stderr s = "hello" +:+ nl /\
  buffer_text s =
    "2024-01-02 03:04:05,678 - INFO - hello" +:+ nl +:+
    "2024-01-02 03:04:05,678 - DEBUG - detail" +:+ nl.
Proof. vm_compute. split; reflexivity. Qed.

Example logfile_written :
  let s := run_calls [Log INFO "hello"] (initial lab_linux fs_good ∅ "") in
  fst (buffer_to_logfile None s) =
    Ok (Some "/var/tmp/fmld.lab01.20240102.030405.out") /\
  OS.read (fs (snd (buffer_to_logfile None s)))
    "/var/tmp/fmld.lab01.20240102.030405.out" =
    Some ("2024-01-02 03:04:05,678 - INFO - hello" +:+ nl).
Proof. vm_compute. split; reflexivity. Qed.

(** * Further properties of the module *)

(** ** [get_tempdir] *)



(** ** [write_testfile] *)

Lemma open_w_Ok m p m1 :
  OS.open_w m p = Ok m1 ->
  m1 = <[p := OS.File true ""]> m /\
  (forall w, m !! p <> Some (OS.Dir w)).
Proof.
  unfold OS.open_w. destruct (m !! p) as [[w|[] data]|] eqn:E;
    try discriminate.
  - intros [= <-]. split; [reflexivity|discriminate].
  - destruct (OS.parent_check m p); [|discriminate].
    intros [= <-]. split; [reflexivity|discriminate].
Qed.

Lemma write_testfile_run p s :
  wp (write_testfile p)
    (fun r s' =>
       match OS.open_w (fs s) p with
       | Raise _ => r = Ok false /\ fs s' = fs s
       | Ok m1 =>
           match OS.write (disk_full (platform s)) m1 p
                   "Test writing to file" with
           | Raise _ => r = Ok false /\ fs s' = m1
           | Ok m2 =>
               match OS.remove m2 p with
               | Ok m3 => r = Ok true /\ fs s' = m3
               | Raise e =>
                   r = Ok (is_FileNotFoundError e) /\ fs s' = m2
               end
           end
       end) s.
Proof.
  unfold write_testfile. wp_steps. st_simpl.
  destruct (OS.open_w (fs s) p) as [m1|e] eqn:Ho.
  - wp_steps. apply wp_file_write. st_simpl.
    destruct (OS.write _ m1 p _) as [m2|e] eqn:Hw.
    + wp_steps. st_simpl.
      destruct (OS.remove m2 p) as [m3|e] eqn:Hr.
      * wp_steps. st_simpl. auto.
      * destruct (is_FileNotFoundError e) eqn:Hn.
        -- wp_steps. st_simpl. auto.
        -- rewrite (remove_OSError _ _ _ Hr). wp_steps. st_simpl. auto.
    + rewrite (write_OSError _ _ _ _ _ Hw). wp_steps. st_simpl. auto.
  - rewrite (open_w_OSError _ _ _ Ho). wp_steps. st_simpl. auto.
Qed.

(** X2. When the directory of the marker path exists, [write_testfile]
    raises nothing; it answers [True] exactly when the marker can be opened
    for writing, the disk is not full and entries may be removed from the
    directory; and after [True] the filesystem is the one from before
    without the marker path: a file that was there has been removed. *)
Theorem write_testfile_outcome (p : string) (s : State) :
  OS.isdir (fs s) (OS.dirname p) = true ->
  exists b,
    fst (write_testfile p s) = Ok b /\
    (b = true <->
     is_Ok (OS.open_w (fs s) p) = true /\
     disk_full (platform s) = false /\
     OS.access_w (fs s) (OS.dirname p) = true) /\
    (b = true -> fs (snd (write_testfile p s)) = delete p (fs s)).
Proof.
  intros Hdir. pose proof (write_testfile_run p s) as H. unfold wp in H.
  destruct (OS.open_w (fs s) p) as [m1|e] eqn:Ho.
  2:{ destruct H as [-> _]. exists false. split; [reflexivity|].
      split; [|discriminate]. cbn. split; [discriminate|]. intros [? _].
      discriminate. }
  destruct (open_w_Ok _ _ _ Ho) as [-> Hnd].
  assert (Hne : OS.dirname p <> p).
  { intros E. rewrite E in Hdir. unfold OS.isdir in Hdir.
    destruct (fs s !! p) as [[w|]|] eqn:E1; try discriminate.
    apply (Hnd w). reflexivity. }
  unfold OS.isdir in Hdir.
  destruct (fs s !! OS.dirname p) as [[w|]|] eqn:Ep; try discriminate.
  unfold OS.access_w. rewrite Ep.
  unfold OS.write in H. cbn [OS.nonempty] in H.
  destruct (disk_full (platform s)); cbn [andb] in H.
  { destruct H as [-> _]. exists false. split; [reflexivity|].
    split; [|discriminate]. split; [discriminate|]. intros (_ & ? & _).
    discriminate. }
  rewrite lookup_insert_eq in H.
  unfold OS.remove, OS.parent_check in H.
  rewrite lookup_insert_eq in H.
  rewrite !lookup_insert_ne in H by auto. rewrite Ep in H.
  destruct w.
  - destruct H as [-> ->]. exists true. split; [reflexivity|].
    split; [tauto|]. intros _. rewrite !delete_insert_eq. reflexivity.
  - destruct H as [-> _]. exists false. split; [reflexivity|].
    split; [|discriminate]. split; [discriminate|]. intros (_ & _ & ?).
    discriminate.
Qed.

Lemma write_testfile_outcome_witness :
  exists b,
    fst (write_testfile "/var/tmp/fmld.testfile"
           (initial lab_linux fs_good ∅ "")) = Ok b /\
    b = true.
Proof.
  destruct (write_testfile_outcome "/var/tmp/fmld.testfile"
              (initial lab_linux fs_good ∅ "") eq_refl) as (b & Hb & Hiff & _).
  exists b. split; [exact Hb|]. apply Hiff. vm_compute. auto.
Defined.

(** X3. When the marker was opened but the write fails, [write_testfile]
    answers [False] and the marker stays behind as an empty file:
    [os.remove] is only reached after a successful write. *)
Theorem write_testfile_leaves_marker (p : string) (s : State) :
  disk_full (platform s) = true ->
  is_Ok (OS.open_w (fs s) p) = true ->
  fst (write_testfile p s) = Ok false /\
  OS.read (fs (snd (write_testfile p s))) p = Some "".
Proof.
  intros Hd Ho. pose proof (write_testfile_run p s) as H. unfold wp in H.
  destruct (OS.open_w (fs s) p) as [m1|e] eqn:E; [|discriminate].
  destruct (open_w_Ok _ _ _ E) as [-> _].
  unfold OS.write in H. rewrite Hd in H. cbn in H.
  destruct H as [-> ->]. split; [reflexivity|].
  unfold OS.read. rewrite lookup_insert_eq. reflexivity.
Qed.

Lemma write_testfile_leaves_marker_witness :
  let s := initial lab_full_disk fs_good ∅ "" in
  fst (write_testfile "/var/tmp/fmld.testfile" s) = Ok false /\
  OS.read (fs (snd (write_testfile "/var/tmp/fmld.testfile" s)))
    "/var/tmp/fmld.testfile" = Some "".
Proof.
  intros s.
  apply (write_testfile_leaves_marker "/var/tmp/fmld.testfile" s);
    reflexivity.
Defined.

(** ** What a log call shows where *)

Lemma logged_stderr lvl msg exc s cl cf contents :
  handlers s = [console_handler cl cf; buffer_handler contents] ->
  stderr (logged lvl msg exc s) =
  if Nat.leb (levelno cl) (levelno lvl) then
    stderr s +:+
    (format cf {| rlevel := lvl; rmsg := msg;
                  rasctime := asctime_now (platform s); rexc := exc |} +:+ nl)
  else stderr s.
Proof.
  intros H. unfold logged, Logger_log. rewrite H.
  destruct lvl, cl; reflexivity.
Qed.

(** X4. Under the setup invariant a log call through the module's logger
    always adds its line, with time and level, to the buffer, and writes
    to the console only when its level is at least the console level, in
    the console format.  With the default settings (INFO, message only) a
    DEBUG call leaves the console alone and any other call prints just the
    message. *)
Theorem log_call_routing (s : State) (lvl : level) (msg : string) :
  attached s ->
  buffer_text (run_call (Log lvl msg) s) =
    buffer_text s +:+ buffer_line s lvl msg None /\
  stderr (run_call (Log lvl msg) s) =
    (if Nat.leb (levelno (_CONSOLE_LEVEL s)) (levelno lvl) then
       stderr s +:+
       (format (_CONSOLE_FORMAT s)
          {| rlevel := lvl; rmsg := msg;
             rasctime := asctime_now (platform s); rexc := None |} +:+ nl)
     else stderr s) /\
  (_CONSOLE_LEVEL s = INFO ->
   _CONSOLE_FORMAT s = _FORMATTER_USER ->
   stderr (run_call (Log lvl msg) s) =
     if bool_decide (lvl = DEBUG) then stderr s
     else stderr s +:+ (msg +:+ nl)).
Proof.
  intros Ha. rewrite run_call_Log.
  assert (Hs : stderr (logged lvl msg None (setup s)) =
               if Nat.leb (levelno (_CONSOLE_LEVEL s)) (levelno lvl) then
                 stderr s +:+
                 (format (_CONSOLE_FORMAT s)
                    {| rlevel := lvl; rmsg := msg;
                       rasctime := asctime_now (platform s); rexc := None |}
                  +:+ nl)
               else stderr s).
  { erewrite logged_stderr by (apply attached_handlers; exact Ha).
    st_simpl. reflexivity. }
  split; [apply buffer_text_logged; exact Ha|]. split; [exact Hs|].
  intros Hl Hf. rewrite Hs, Hl, Hf.
  destruct lvl; cbn [levelno Nat.leb bool_decide decide_rel]; try reflexivity;
    unfold format, _FORMATTER_USER; cbn [foldr field_text rmsg rexc];
    rewrite string_app_nil_r; reflexivity.
Qed.

Lemma log_call_routing_witness :
  let s := initial lab_linux fs_good ∅ "" in
  stderr (run_call (Log DEBUG "detail") s) = "" /\
  stderr (run_call (Log WARNING "careful") s) = "careful" +:+ nl.
Proof.
  intros s. split.
  - exact (proj2 (proj2 (log_call_routing s DEBUG "detail" eq_refl))
             eq_refl eq_refl).
  - exact (proj2 (proj2 (log_call_routing s WARNING "careful" eq_refl))
             eq_refl eq_refl).
Defined.

(** ** Debug mode, there and back *)

(** X5. In a state under the setup invariant with the default console
    settings, [enable_debug] followed by [disable_debug] gives back exactly
    the state from before, whether or not the logger is set up; and
    repeating either toggle changes nothing more. *)
Theorem debug_toggle_round_trip (s : State) :
  attached s ->
  _CONSOLE_LEVEL s = INFO ->
  _CONSOLE_FORMAT s = _FORMATTER_USER ->
  snd (disable_debug (snd (enable_debug s))) = s /\
  snd (enable_debug (snd (enable_debug s))) = snd (enable_debug s) /\
  snd (disable_debug (snd (disable_debug s))) = snd (disable_debug s).
Proof.
  intros Ha Hl Hf.
  change (toggles [true; false] s = s /\
          toggles [true; true] s = toggles [true] s /\
          toggles [false; false] s = toggles [false] s).
  unfold attached in Ha. destruct (_LOG_SETUP s) eqn:E.
  - destruct Ha as [v Hh]. rewrite !toggles_set by auto. cbn [last].
    rewrite Hh, Hl, Hf.
    split; [|split; reflexivity].
    destruct s as [L hs b cl cf e f sc en ca pc pl]. cbn in *. subst.
    reflexivity.
  - rewrite !toggles_unset by auto. cbn [last].
    split; [|split; reflexivity].
    destruct s as [L hs b cl cf e f sc en ca pc pl]. cbn in *. subst.
    reflexivity.
Qed.

Lemma debug_toggle_round_trip_witness :
  let s := run_calls [Log INFO "hello"] (initial lab_linux fs_good ∅ "") in
  snd (disable_debug (snd (enable_debug s))) = s.
Proof.
  intros s. apply (debug_toggle_round_trip s); [|reflexivity|reflexivity].
  vm_compute. eexists. reflexivity.
Defined.

(** ** CA bundle discovery, again *)

Lemma discovered_bundle_isfile s :
  OS.isfile (fs s) (_CA_BUNDLE s) = true \/
  Exists (fun p => OS.isfile (fs s) p = true) cacert_paths ->
  OS.isfile (fs s) (discovered_bundle s) = true.
Proof.
  unfold discovered_bundle.
  destruct (OS.isfile (fs s) (_CA_BUNDLE s)) eqn:E; [auto|].
  intros [H|H]; [discriminate|].
  destruct (find (OS.isfile (fs s)) cacert_paths) as [p|] eqn:F; cbn.
  - apply find_some in F. tauto.
  - apply Exists_exists in H as (p & Hin & Hp).
    apply list_elem_of_In in Hin.
    rewrite (find_none _ _ F p Hin) in Hp. discriminate.
Qed.

(** X6. [add_cacert_paths] is idempotent: a second call changes nothing.
    After a call the client's bundle path names an existing file whenever
    the configured path or one of the listed paths does. *)
Theorem add_cacert_paths_idempotent (s : State) :
  snd (add_cacert_paths (snd (add_cacert_paths s))) =
    snd (add_cacert_paths s) /\
  (OS.isfile (fs s) (_CA_BUNDLE s) = true \/
   Exists (fun p => OS.isfile (fs s) p = true) cacert_paths ->
   OS.isfile (fs s) (_CA_BUNDLE (snd (add_cacert_paths s))) = true).
Proof.
  rewrite !add_cacert_paths_eq. cbn [snd]. split.
  - unfold discovered_bundle at 1. st_cbn.
    destruct (OS.isfile (fs s) (discovered_bundle s)) eqn:E.
    + destruct s; reflexivity.
    + unfold discovered_bundle in E |- *.
      destruct (OS.isfile (fs s) (_CA_BUNDLE s)) eqn:E1; [congruence|].
      destruct (find (OS.isfile (fs s)) cacert_paths) as [p|] eqn:F;
        cbn [default from_option id] in *; [|destruct s; reflexivity].
      apply find_some in F. destruct F as [_ F]. congruence.
  - st_cbn. apply discovered_bundle_isfile.
Qed.

Lemma add_cacert_paths_idempotent_witness :
  _CA_BUNDLE (snd (add_cacert_paths (initial lab_linux fs_mac_certs ∅ ""))) =
    "/etc/ssl/cert.pem" /\
  OS.isfile fs_mac_certs
    (_CA_BUNDLE (snd (add_cacert_paths (initial lab_linux fs_mac_certs ∅ ""))))
  = true.
Proof.
  split; [reflexivity|].
  apply (add_cacert_paths_idempotent (initial lab_linux fs_mac_certs ∅ "")).
  right. vm_compute. apply Exists_cons_tl, Exists_cons_hd. reflexivity.
Defined.

(** ** [create_paste] *)

(** X7. [create_paste] makes exactly one call of the paste service, with
    the module's credentials, the content and the two flags as given, and
    the bundle path that discovery settles on; that bundle path stays
    configured afterwards, whether or not the paste was made.  A link is
    returned as it is, an exception of class [Exception] gives [None], any
    other exception is raised; the filesystem is not touched. *)
Theorem create_paste_outcome (s : State) (content : string)
    (permanent color : bool) :
  paste_calls (snd (create_paste content permanent color s)) =
    (paste_calls s ++
     [{| pc_bundle := discovered_bundle s; pc_content := content;
         pc_permanent := permanent; pc_color := color |}])%list /\
  _CA_BUNDLE (snd (create_paste content permanent color s)) =
    discovered_bundle s /\
  fs (snd (create_paste content permanent color s)) = fs s /\
  fst (create_paste content permanent color s) =
    match everpaste_create (platform s) _APP_ID _APP_TOKEN
            (discovered_bundle s) content permanent color with
    | Ok link => Ok (Some link)
    | Raise e => if is_Exception e then Ok None else Raise e
    end.
Proof.
  change (wp (create_paste content permanent color)
            (fun r s' =>
               paste_calls s' =
                 (paste_calls s ++
                  [{| pc_bundle := discovered_bundle s; pc_content := content;
                      pc_permanent := permanent; pc_color := color |}])%list /\
               _CA_BUNDLE s' = discovered_bundle s /\
               fs s' = fs s /\
               r = match everpaste_create (platform s) _APP_ID _APP_TOKEN
                           (discovered_bundle s) content permanent color with
                   | Ok link => Ok (Some link)
                   | Raise e => if is_Exception e then Ok None else Raise e
                   end) s).
  unfold create_paste. wp_steps. apply wp_add_cacert_paths.
  wp_steps. unfold wp at 1, EverPaste_create. st_simpl.
  rewrite discovered_bundle_setup.
  destruct (everpaste_create _ _ _ _ _ _ _) as [link|e]; st_simpl.
  - wp_steps. st_simpl. auto.
  - destruct (is_Exception e); wp_steps; st_simpl; auto.
Qed.

(** ** The log directory on a healthy machine *)

(** A write test that passes: three file operations, and nothing else
    differs from the state [get_logger] leaves. *)
Lemma wp_write_testfile_pass p (Q : res bool -> State -> Prop) s :
  fs s !! p = None ->
  fs s !! OS.dirname p = Some (OS.Dir true) ->
  disk_full (platform s) = false ->
  (forall s',
     fs s' = fs s ->
     handlers s' = handlers (setup s) ->
     stderr s' = stderr s ->
     syscalls s' =
       (syscalls s ++ [OS.SysOpenW p; OS.SysWrite p; OS.SysRemove p])%list ->
     platform s' = platform s ->
     _LOG_SETUP s' = true ->
     _LOGGER s' = _LOGGER s ->
     Q (Ok true) s') ->
  wp (write_testfile p) Q s.
Proof.
  intros Hp Hd Hf HQ.
  assert (Hne : OS.dirname p <> p) by congruence.
  unfold write_testfile. wp_steps. st_simpl.
  unfold OS.open_w, OS.parent_check. rewrite Hp, Hd.
  wp_steps. apply wp_file_write. st_simpl.
  unfold OS.write. rewrite Hf. cbn [andb]. rewrite lookup_insert_eq.
  wp_steps. st_simpl.
  unfold OS.remove, OS.parent_check. rewrite lookup_insert_eq.
  rewrite !lookup_insert_ne by auto. rewrite Hd.
  wp_steps. apply HQ; st_simpl; try reflexivity.
  - rewrite !delete_insert_eq. apply delete_id. exact Hp.
  - rewrite <- !app_assoc. reflexivity.
Qed.

(** The two system log paths and their marker files. *)
Lemma LOG_DIR_cases pl d :
  _LOG_DIR pl = Some d ->
  (d = "/var/tmp" \/ d = "/var/log") /\
  OS.dirname (d +:+ "/fmld.testfile") = d /\
  d +:+ "/fmld.testfile" <> d /\
  snd (OS.makedirs_split d) <> ".".
Proof.
  unfold _LOG_DIR.
  destruct (is_linux pl || is_mac pl); [|destruct (is_windows pl)];
    intros [= <-]; (split; [auto|]); (split; [reflexivity|]);
    split; discriminate.
Qed.

Lemma get_logdir_pass s d (Q : res string -> State -> Prop) :
  _LOG_DIR (platform s) = Some d ->
  fs s !! d = Some (OS.Dir true) ->
  fs s !! (d +:+ "/fmld.testfile") = None ->
  disk_full (platform s) = false ->
  (forall s',
     fs s' = fs s ->
     handlers s' = handlers (setup s) ->
     stderr s' = stderr s ->
     syscalls s' =
       (syscalls s ++ [OS.SysOpenW (d +:+ "/fmld.testfile");
                       OS.SysWrite (d +:+ "/fmld.testfile");
                       OS.SysRemove (d +:+ "/fmld.testfile")])%list ->
     platform s' = platform s ->
     _LOG_SETUP s' = true ->
     _LOGGER s' = _LOGGER s ->
     Q (Ok d) s') ->
  wp get_logdir Q s.
Proof.
  intros Hd Hdir Hm Hf HQ.
  destruct (LOG_DIR_cases _ _ Hd) as (_ & Hdn & _ & _).
  rewrite get_logdir_unfold. wp_step. wp_step. wp_step.
  unfold wp at 1. st_simpl. rewrite Hd. cbn [fst snd].
  wp_steps. st_simpl. unfold OS.isdir. rewrite Hdir. cbn [negb].
  wp_steps. unfold get_logdir_probe. wp_steps.
  apply wp_write_testfile_pass; st_simpl; try rewrite Hdn; auto.
Qed.

(** X8. On a platform with a system log path, when that path is a
    directory open to writing, no marker file is in the way and the disk
    is not full, [get_logdir] returns the system log path, leaves the
    filesystem as it was, and logs nothing: the buffer and the console are
    as [get_logger] leaves them.  Its only file operations are the three of
    the write test. *)
Theorem get_logdir_quiet (s : State) (d : string) :
  _LOG_DIR (platform s) = Some d ->
  fs s !! d = Some (OS.Dir true) ->
  fs s !! (d +:+ "/fmld.testfile") = None ->
  disk_full (platform s) = false ->
  fst (get_logdir s) = Ok d /\
  fs (snd (get_logdir s)) = fs s /\
  handlers (snd (get_logdir s)) = handlers (setup s) /\
  stderr (snd (get_logdir s)) = stderr s /\
  syscalls (snd (get_logdir s)) =
    (syscalls s ++ [OS.SysOpenW (d +:+ "/fmld.testfile");
                    OS.SysWrite (d +:+ "/fmld.testfile");
                    OS.SysRemove (d +:+ "/fmld.testfile")])%list.
Proof.
  intros Hd Hdir Hm Hf.
  change (wp get_logdir
            (fun r s' =>
               r = Ok d /\ fs s' = fs s /\ handlers s' = handlers (setup s) /\
               stderr s' = stderr s /\
               syscalls s' =
                 (syscalls s ++ [OS.SysOpenW (d +:+ "/fmld.testfile");
                                 OS.SysWrite (d +:+ "/fmld.testfile");
                                 OS.SysRemove (d +:+ "/fmld.testfile")])%list)
            s).
  apply (get_logdir_pass s d); auto.
Qed.

Lemma get_logdir_quiet_witness :
  let s := initial lab_linux fs_good ∅ "" in
  fst (get_logdir s) = Ok "/var/tmp" /\
  fs (snd (get_logdir s)) = fs_good /\
  stderr (snd (get_logdir s)) = "".
Proof.
  intros s.
  destruct (get_logdir_quiet s "/var/tmp" eq_refl eq_refl eq_refl eq_refl)
    as (H1 & H2 & _ & H3 & _).
  auto.
Defined.

(** ** The default log file *)

Lemma wp_make_logfile_pass s d (Q : res string -> State -> Prop) :
  _LOG_DIR (platform s) = Some d ->
  fs s !! d = Some (OS.Dir true) ->
  fs s !! (d +:+ "/fmld.testfile") = None ->
  disk_full (platform s) = false ->
  let file := OS.join d ("fmld." +:+ node (platform s) +:+
                         "." +:+ strftime_now (platform s) +:+ ".out") in
  fs s !! file = None ->
  OS.dirname file = d ->
  (forall s',
     fs s' = <[file := OS.File true ""]> (fs s) ->
     handlers s' = handlers (setup s) ->
     stderr s' = stderr s ->
     platform s' = platform s ->
     _LOG_SETUP s' = true ->
     _LOGGER s' = _LOGGER s ->
     Q (Ok file) s') ->
  wp make_logfile Q s.
Proof.
  intros Hd Hdir Hm Hf file Hfile Hdn HQ.
  unfold make_logfile. wp_steps.
  apply (get_logdir_pass s d); auto.
  intros s1 H1 H2 H3 _ H5 H6 H7. wp_steps.
  cbn [_mkstemp_inner]. change (TMP_MAX <=? 0)%N with false. cbv iota.
  wp_steps. rewrite H5. fold file.
  unfold OS.open_excl, OS.parent_check. rewrite H1, Hfile, Hdn, Hdir.
  wp_steps. apply HQ; st_simpl; auto.
Qed.

(** X9. On a healthy machine (the system log path a directory open to
    writing, disk not full, no marker in the way) where no file is yet
    named after this host and second, [make_logfile] returns the path
    [<logdir>/fmld.<host>.<timestamp>.out]; that file now exists and is
    empty, and nothing else in the filesystem has changed.  The host name
    and the time stamp must not contain a slash, which is the hypothesis
    on [OS.dirname]. *)
Theorem make_logfile_creates_named_file (s : State) (d : string) :
  _LOG_DIR (platform s) = Some d ->
  fs s !! d = Some (OS.Dir true) ->
  fs s !! (d +:+ "/fmld.testfile") = None ->
  disk_full (platform s) = false ->
  let file := OS.join d ("fmld." +:+ node (platform s) +:+
                         "." +:+ strftime_now (platform s) +:+ ".out") in
  fs s !! file = None ->
  OS.dirname file = d ->
  fst (make_logfile s) = Ok file /\
  fs (snd (make_logfile s)) = <[file := OS.File true ""]> (fs s) /\
  OS.read (fs (snd (make_logfile s))) file = Some "".
Proof.
  intros Hd Hdir Hm Hf file Hfile Hdn.
  change (wp make_logfile
            (fun r s' =>
               r = Ok file /\ fs s' = <[file := OS.File true ""]> (fs s) /\
               OS.read (fs s') file = Some "") s).
  apply (wp_make_logfile_pass s d); auto.
  intros s' H1 _ _ _ _ _. split; [reflexivity|]. split; [exact H1|].
  unfold OS.read. rewrite H1, lookup_insert_eq. reflexivity.
Qed.

Lemma make_logfile_creates_named_file_witness :
  let s := initial lab_linux fs_good ∅ "" in
  fst (make_logfile s) = Ok "/var/tmp/fmld.lab01.20240102.030405.out" /\
  OS.read (fs (snd (make_logfile s)))
    "/var/tmp/fmld.lab01.20240102.030405.out" = Some "".
Proof.
  intros s.
  destruct (make_logfile_creates_named_file s "/var/tmp"
              eq_refl eq_refl eq_refl eq_refl eq_refl eq_refl)
    as (H1 & _ & H2).
  split; [exact H1|exact H2].
Defined.

(** X10. On such a machine, and under the setup invariant,
    [buffer_to_logfile] without a path returns the path
    [<logdir>/fmld.<host>.<timestamp>.out] and the only change to the
    filesystem is that file, holding the buffer text: no marker file is
    left, and the probe of the log directory has added nothing to the
    buffer. *)
Theorem buffer_to_logfile_default_export (s : State) (d : string) :
  attached s ->
  _LOG_DIR (platform s) = Some d ->
  fs s !! d = Some (OS.Dir true) ->
  fs s !! (d +:+ "/fmld.testfile") = None ->
  disk_full (platform s) = false ->
  let file := OS.join d ("fmld." +:+ node (platform s) +:+
                         "." +:+ strftime_now (platform s) +:+ ".out") in
  fs s !! file = None ->
  OS.dirname file = d ->
  fst (buffer_to_logfile None s) = Ok (Some file) /\
  fs (snd (buffer_to_logfile None s)) =
    <[file := OS.File true (buffer_text s)]> (fs s) /\
  buffer_text (snd (buffer_to_logfile None s)) = buffer_text s.
Proof.
  intros Ha Hd Hdir Hm Hf file Hfile Hdn.
  pose proof (attached_buffer_text s Ha) as Hb.
  change (wp (buffer_to_logfile None)
            (fun r s' =>
               r = Ok (Some file) /\
               fs s' = <[file := OS.File true (buffer_text s)]> (fs s) /\
               buffer_text s' = buffer_text s) s).
  unfold buffer_to_logfile. wp_step. wp_step. wp_step.
  apply (wp_make_logfile_pass (setup s) d); st_simpl; auto.
  fold file. intros s1 H1 H2 H3 H4 H5 H6. wp_steps.
  unfold OS.open_w. rewrite H1, lookup_insert_eq.
  wp_steps. apply wp_get_buffer_contents. st_simpl.
  rewrite setup_done by (st_cbn; exact H5). st_cbn.
  rewrite H2, Hb. wp_steps. apply wp_file_write. st_simpl.
  unfold OS.write. rewrite H4, Hf. cbn [andb]. rewrite lookup_insert_eq.
  wp_steps. st_simpl. split; [reflexivity|].
  split; [rewrite !insert_insert_eq; reflexivity|].
  unfold buffer_text at 1. st_cbn. rewrite H2, Hb. reflexivity.
Qed.

Lemma buffer_to_logfile_default_export_witness :
  let s := run_calls [Log INFO "hello"] (initial lab_linux fs_good ∅ "") in
  fst (buffer_to_logfile None s) =
    Ok (Some "/var/tmp/fmld.lab01.20240102.030405.out") /\
  fs (snd (buffer_to_logfile None s)) =
    <["/var/tmp/fmld.lab01.20240102.030405.out" :=
        OS.File true ("2024-01-02 03:04:05,678 - INFO - hello" +:+ nl)]> fs_good.
Proof.
  intros s.
  destruct (buffer_to_logfile_default_export s "/var/tmp") as (H1 & H2 & _);
    try reflexivity.
  { vm_compute. eexists. reflexivity. }
  split; [exact H1|exact H2].
Defined.

(** ** With and without a path *)

Lemma nonempty_join dir x : OS.nonempty (OS.join dir x) = true.
Proof. unfold OS.join. destruct dir; reflexivity. Qed.

Lemma mkstemp_nonempty names : forall seq dir pre suf s,
  wp (_mkstemp_inner seq names dir pre suf)
    (fun r _ => forall p, r = Ok p -> OS.nonempty p = true) s.
Proof.
  induction names as [|name names IH]; intros seq dir pre suf s;
    cbn [_mkstemp_inner]; destruct (TMP_MAX <=? seq)%N; wp_steps;
    try discriminate.
  destruct (OS.open_excl (fs s) _) as [m|e].
  - wp_steps. intros p [= <-]. apply nonempty_join.
  - destruct (is_FileExistsError e || is_PermissionError e); [|discriminate].
    destruct (is_FileExistsError e); [apply IH|].
    wp_steps. st_simpl.
    destruct (is_windows (platform s) && OS.isdir (fs s) dir
              && OS.access_w (fs s) dir);
      [apply IH|wp_steps; discriminate].
Qed.

Lemma make_logfile_nonempty s p s1 :
  make_logfile s = (Ok p, s1) -> OS.nonempty p = true.
Proof.
  intros H.
  assert (W : wp make_logfile
                (fun r _ => forall p, r = Ok p -> OS.nonempty p = true) s).
  { unfold make_logfile. wp_steps. unfold wp at 1.
    destruct (get_logdir s) as [[d|e] s2]; cbn [fst snd]; [|discriminate].
    wp_steps. apply mkstemp_nonempty. }
  unfold wp in W. rewrite H in W. apply W. reflexivity.
Qed.

Lemma buffer_to_logfile_with_path p s :
  OS.nonempty p = true ->
  buffer_to_logfile (Some p) s =
  try_except
    (open_w p;;
     contents ← get_buffer_contents;
     file_write p contents;;
     mret (Some p))
    is_OSError
    (fun e =>
       Logger_exception (_LOGGER s) e;;
       Logger_error (_LOGGER s) ("Failed to write log file: " +:+ p);;
       mret None) (setup s).
Proof.
  intros Hn. unfold buffer_to_logfile.
  unfold mbind at 1, M_bind at 1. rewrite get_logger_eq, Hn.
  reflexivity.
Qed.

(** X11. [buffer_to_logfile] treats the empty string as no path; and
    without a path it does what [make_logfile] followed by
    [buffer_to_logfile] on the path made does: when [make_logfile] returns
    a path, the two have the same result and leave the same state. *)
Theorem buffer_to_logfile_without_path (s : State) :
  buffer_to_logfile (Some "") s = buffer_to_logfile None s /\
  (forall p s1,
     make_logfile (setup s) = (Ok p, s1) ->
     buffer_to_logfile None s = buffer_to_logfile (Some p) s1).
Proof.
  split; [reflexivity|]. intros p s1 H.
  pose proof (make_logfile_nonempty _ _ _ H) as Hn.
  pose proof (make_logfile_follows (setup s)) as F. rewrite H in F.
  cbn [snd] in F. destruct F as (_ & _ & HL & _ & Hs & _).
  rewrite setup_LOGGER in HL. specialize (Hs (setup_LOG_SETUP s)).
  rewrite buffer_to_logfile_no_path, H by auto.
  rewrite buffer_to_logfile_with_path by exact Hn.
  rewrite setup_done, HL by exact Hs.
  reflexivity.
Qed.

Lemma buffer_to_logfile_without_path_witness :
  let s := initial lab_linux fs_good ∅ "" in
  buffer_to_logfile None s =
  buffer_to_logfile (Some "/var/tmp/fmld.lab01.20240102.030405.out")
    (snd (make_logfile (setup s))).
Proof.
  intros s.
  apply (proj2 (buffer_to_logfile_without_path s)
           "/var/tmp/fmld.lab01.20240102.030405.out"
           (snd (make_logfile (setup s)))).
  vm_compute. reflexivity.
Defined.

(** ** A failed export is not harmless *)



(** ** What [get_logdir] can raise *)



(** ** Creating the log directory *)

Lemma mkdir_Ok m p m' : OS.mkdir m p = Ok m' -> m' = <[p := OS.Dir true]> m.
Proof.
  unfold OS.mkdir. destruct (m !! p); [discriminate|].
  destruct (OS.parent_check m p); [|discriminate]. intros [= <-]. reflexivity.
Qed.

Lemma makedirs_isdir m name m' :
  snd (OS.makedirs_split name) <> "." ->
  OS.makedirs m name = Ok m' ->
  m' !! name = Some (OS.Dir true).
Proof.
  intros Ht. unfold OS.makedirs.
  assert (Hmk : forall m0, OS.mkdir m0 name = Ok m' ->
                           m' !! name = Some (OS.Dir true)).
  { intros m0 H. apply mkdir_Ok in H as ->. apply lookup_insert_eq. }
  destruct (String.length name) as [|fuel]; cbn [OS.makedirs_rec];
    destruct (OS.makedirs_split name) as [head tail]; cbn [snd] in Ht;
    destruct (OS.nonempty head && OS.nonempty tail
              && negb (OS.exists_ m head)); eauto; try discriminate.
  rewrite bool_decide_eq_false_2 by exact Ht.
  destruct (OS.makedirs_rec fuel m head) as [m1|e]; eauto.
  destruct (is_FileExistsError e); eauto. discriminate.
Qed.

Lemma write_testfile_fs_other p s k :
  k <> p -> fs (snd (write_testfile p s)) !! k = fs s !! k.
Proof.
  intros Hk. pose proof (write_testfile_run p s) as H. unfold wp in H.
  destruct (OS.open_w (fs s) p) as [m1|e] eqn:Ho;
    [|destruct H as [_ ->]; reflexivity].
  destruct (open_w_Ok _ _ _ Ho) as [-> _].
  unfold OS.write in H.
  destruct (disk_full (platform s) && _) in H.
  { destruct H as [_ ->]. apply lookup_insert_ne. auto. }
  rewrite lookup_insert_eq in H.
  unfold OS.remove in H. rewrite lookup_insert_eq in H.
  destruct (OS.parent_check _ p) in H; destruct H as [_ ->].
  - rewrite lookup_delete_ne, !lookup_insert_ne by auto. reflexivity.
  - rewrite !lookup_insert_ne by auto. reflexivity.
Qed.

Lemma wp_write_testfile_other p (Q : res bool -> State -> Prop) s :
  (forall b s',
     (forall k, k <> p -> fs s' !! k = fs s !! k) ->
     Q (Ok b) s') ->
  wp (write_testfile p) Q s.
Proof.
  intros HQ. unfold wp.
  assert (exists b, fst (write_testfile p s) = Ok b) as [b Hb].
  { pose proof (write_testfile_run p s) as H. unfold wp in H.
    repeat case_match; destruct H as [-> _]; eauto. }
  rewrite Hb. apply HQ. intros k Hk. apply write_testfile_fs_other, Hk.
Qed.

(** X14. When the system log path is missing and [os.makedirs] succeeds,
    the path is a directory once [get_logdir] is done, whatever it
    returns; and when no marker file is in the way and the disk is not
    full, [get_logdir] returns the new directory and the filesystem is the
    one [os.makedirs] left. *)
Theorem get_logdir_creates_directory (s : State) (d : string)
    (m : gmap string OS.node) :
  _LOG_DIR (platform s) = Some d ->
  OS.exists_ (fs s) d = false ->
  OS.makedirs (fs s) d = Ok m ->
  OS.isdir (fs (snd (get_logdir s))) d = true /\
  (m !! (d +:+ "/fmld.testfile") = None ->
   disk_full (platform s) = false ->
   fst (get_logdir s) = Ok d /\ fs (snd (get_logdir s)) = m).
Proof.
  intros Hd Hex Hm.
  destruct (LOG_DIR_cases _ _ Hd) as (_ & Hdn & Hne & Ht).
  pose proof (makedirs_isdir _ _ _ Ht Hm) as Hmd.
  assert (Hdir : OS.isdir (fs s) d = false).
  { unfold OS.isdir, OS.exists_ in *. destruct (fs s !! d); congruence. }
  split.
  - change (wp get_logdir (fun _ s' => OS.isdir (fs s') d = true) s).
    assert (Hkeep : forall s1 s2,
              fs s1 !! d = Some (OS.Dir true) ->
              (forall k, k <> d +:+ "/fmld.testfile" ->
                         fs s2 !! k = fs s1 !! k) ->
              fs s2 !! d = Some (OS.Dir true)).
    { intros s1 s2 H1 H2. rewrite H2 by auto. exact H1. }
    rewrite get_logdir_unfold. wp_step. wp_step. wp_step.
    unfold wp at 1. st_simpl. rewrite Hd. cbn [fst snd].
    wp_steps. st_simpl. rewrite Hdir. cbn [negb]. wp_steps. st_simpl.
    rewrite Hex. wp_steps. st_simpl. rewrite Hm. wp_steps.
    unfold get_logdir_probe. wp_steps.
    apply wp_write_testfile_other. intros b s1 H1. wp_steps.
    assert (H1d : fs s1 !! d = Some (OS.Dir true)).
    { rewrite H1 by auto. st_simpl. exact Hmd. }
    destruct b; cbn [negb].
    + wp_steps. unfold OS.isdir. rewrite H1d. reflexivity.
    + wp_steps. apply wp_get_tempdir. wp_steps.
      apply wp_write_testfile_other. intros b s2 H2.
      assert (H2d : fs s2 !! d = Some (OS.Dir true)).
      { rewrite H2 by auto. st_simpl. exact H1d. }
      destruct b; cbn [negb]; wp_steps; st_simpl; unfold OS.isdir;
        rewrite H2d; reflexivity.
  - intros Hmark Hf.
    change (wp get_logdir (fun r s' => r = Ok d /\ fs s' = m) s).
    rewrite get_logdir_unfold. wp_step. wp_step. wp_step.
    unfold wp at 1. st_simpl. rewrite Hd. cbn [fst snd].
    wp_steps. st_simpl. rewrite Hdir. cbn [negb]. wp_steps. st_simpl.
    rewrite Hex. wp_steps. st_simpl. rewrite Hm. wp_steps.
    unfold get_logdir_probe. wp_steps.
    apply wp_write_testfile_pass; st_simpl; try rewrite Hdn; auto.
    intros s' H1 _ _ _ _ _ _. wp_steps. cbn [negb]. wp_steps. auto.
Qed.

Lemma get_logdir_creates_directory_witness :
  let s := initial lab_linux
             (<["/var" := OS.Dir true]> (<["/" := OS.Dir true]> ∅)) ∅ "" in
  OS.isdir (fs (snd (get_logdir s))) "/var/tmp" = true /\
  fst (get_logdir s) = Ok "/var/tmp".
Proof.
  intros s.
  destruct (get_logdir_creates_directory s "/var/tmp"
              (<["/var/tmp" := OS.Dir true]>
                 (<["/var" := OS.Dir true]> (<["/" := OS.Dir true]> ∅)))
              eq_refl eq_refl) as [H1 H2].
  { vm_compute. reflexivity. }
  split; [exact H1|]. apply H2; reflexivity.
Defined.

(** ** The console in debug mode *)

Lemma run_call_Log_stderr lvl msg s :
  attached s ->
  stderr (run_call (Log lvl msg) s) =
  if Nat.leb (levelno (_CONSOLE_LEVEL s)) (levelno lvl) then
    stderr s +:+
    (format (_CONSOLE_FORMAT s)
       {| rlevel := lvl; rmsg := msg;
          rasctime := asctime_now (platform s); rexc := None |} +:+ nl)
  else stderr s.
Proof.
  intros Ha. rewrite run_call_Log.
  erewrite logged_stderr by (apply attached_handlers; exact Ha).
  st_simpl. reflexivity.
Qed.

Lemma toggle_frame on s :
  stderr (snd (toggle on s)) = stderr s /\
  _CONSOLE_LEVEL (snd (toggle on s)) = level_of on /\
  _CONSOLE_FORMAT (snd (toggle on s)) = format_of on.
Proof.
  destruct (_LOG_SETUP s) eqn:E.
  - rewrite toggle_set by auto. auto.
  - rewrite toggle_unset by auto. auto.
Qed.

(** X15. After [enable_debug], whether made before or after setup, every
    log call writes to the console exactly the line it adds to the buffer,
    whatever its level; after [disable_debug] a DEBUG call writes nothing
    to the console and is still recorded in the buffer. *)
Theorem debug_mode_console_mirrors_buffer (s : State) (lvl : level)
    (msg : string) :
  attached s ->
  stderr (run_call (Log lvl msg) (snd (enable_debug s))) =
    stderr s +:+ buffer_line s lvl msg None /\
  stderr (run_call (Log DEBUG msg) (snd (disable_debug s))) = stderr s /\
  buffer_text (run_call (Log DEBUG msg) (snd (disable_debug s))) =
    buffer_text s +:+ buffer_line s DEBUG msg None.
Proof.
  intros Ha.
  change (snd (enable_debug s)) with (snd (toggle true s)).
  change (snd (disable_debug s)) with (snd (toggle false s)).
  rewrite !run_call_Log_stderr by (apply attached_toggle; exact Ha).
  destruct (toggle_frame true s) as (-> & -> & ->).
  destruct (toggle_frame false s) as (-> & -> & _).
  rewrite platform_toggle.
  split; [destruct lvl; reflexivity|]. split; [reflexivity|].
  destruct (run_call_spec (Log DEBUG msg) _ (attached_toggle false s Ha))
    as (_ & _ & ->).
  rewrite buffer_text_toggle. cbn [call_text].
  rewrite (buffer_line_platform s) by apply platform_toggle.
  reflexivity.
Qed.

Lemma debug_mode_console_mirrors_buffer_witness :
  stderr (run_call (Log DEBUG "detail")
            (snd (enable_debug (initial lab_linux fs_good ∅ "")))) =
  "2024-01-02 03:04:05,678 - DEBUG - detail" +:+ nl.
Proof.
  exact (proj1 (debug_mode_console_mirrors_buffer
                  (initial lab_linux fs_good ∅ "") DEBUG "detail" eq_refl)).
Defined.

(** ** A paste leaves the buffer alone *)

Lemma discovered_bundle_ext s1 s2 :
  fs s1 = fs s2 -> _CA_BUNDLE s1 = _CA_BUNDLE s2 ->
  discovered_bundle s1 = discovered_bundle s2.
Proof. unfold discovered_bundle. intros -> ->. reflexivity. Qed.

Lemma discovered_bundle_fixed s :
  discovered_bundle (set_CA_BUNDLE (discovered_bundle s) s) =
  discovered_bundle s.
Proof.
  unfold discovered_bundle at 1. st_cbn.
  destruct (OS.isfile (fs s) (discovered_bundle s)) eqn:E; [reflexivity|].
  unfold discovered_bundle in E |- *.
  destruct (OS.isfile (fs s) (_CA_BUNDLE s)) eqn:E1; [congruence|].
  destruct (find (OS.isfile (fs s)) cacert_paths) as [p|] eqn:F;
    cbn [default from_option id] in *; [|reflexivity].
  apply find_some in F. destruct F as [_ F]. congruence.
Qed.

(** X16. Under the setup invariant, when the paste service answers with a
    link, [buffer_log_to_paste] leaves the buffer text, the console and the
    filesystem as they were: the buffer is not emptied by an export, and a
    second export sends the same text again. *)
Theorem buffer_log_to_paste_keeps_buffer (s : State) :
  attached s ->
  is_Ok (everpaste_create (platform s) _APP_ID _APP_TOKEN
           (discovered_bundle s) (buffer_text s) false false) = true ->
  buffer_text (snd (buffer_log_to_paste s)) = buffer_text s /\
  stderr (snd (buffer_log_to_paste s)) = stderr s /\
  fs (snd (buffer_log_to_paste s)) = fs s /\
  (buffer_text s <> "" ->
   pc_content <$> paste_calls (snd (buffer_log_to_paste
                                      (snd (buffer_log_to_paste s)))) =
   (pc_content <$> paste_calls s) ++ [buffer_text s; buffer_text s])%list.
Proof.
  intros Ha Hok.
  pose proof (attached_buffer_text s Ha) as Hb.
  pose proof (attached_handlers s Ha) as Hh.
  assert (W : forall s0,
             handlers (setup s0) = handlers (setup s) ->
             stderr s0 = stderr s -> fs s0 = fs s ->
             platform s0 = platform s ->
             discovered_bundle s0 = discovered_bundle s ->
             wp buffer_log_to_paste
               (fun _ s' =>
                  handlers s' = handlers (setup s) /\ stderr s' = stderr s /\
                  fs s' = fs s /\ platform s' = platform s /\
                  discovered_bundle s' = discovered_bundle s /\
                  _LOG_SETUP s' = true /\
                  (buffer_text s <> "" ->
                   paste_calls s' =
                     (paste_calls s0 ++
                      [{| pc_bundle := discovered_bundle s;
                          pc_content := buffer_text s;
                          pc_permanent := false; pc_color := false |}])%list))
               s0).
  { intros s0 H0 H1 H2 H3 H4.
    unfold buffer_log_to_paste. wp_step. apply wp_get_buffer_contents.
    rewrite H0, Hb. cbv beta iota.
    destruct (OS.nonempty (buffer_text s)) eqn:Hn.
    2:{ wp_steps. st_simpl. repeat split; auto.
        - rewrite discovered_bundle_setup. exact H4.
        - intros Hne. apply nonempty_false in Hn. contradiction. }
    unfold create_paste. wp_steps. apply wp_add_cacert_paths.
    wp_steps. unfold wp at 1, EverPaste_create. st_simpl.
    rewrite discovered_bundle_setup, H3, H4.
    destruct (everpaste_create _ _ _ _ _ _ _) as [link|e];
      [|discriminate]. st_simpl.
    wp_steps. st_simpl. repeat split; auto.
    transitivity (discovered_bundle (set_CA_BUNDLE (discovered_bundle s0) s0));
      [|rewrite discovered_bundle_fixed; exact H4].
    apply discovered_bundle_ext; st_simpl; auto. }
  pose proof (W s eq_refl eq_refl eq_refl eq_refl eq_refl) as W1.
  unfold wp in W1. destruct W1 as (A1 & A2 & A3 & A4 & A5 & A6 & A7).
  split; [unfold buffer_text at 1; rewrite A1, Hb; reflexivity|].
  split; [exact A2|]. split; [exact A3|]. intros Hne.
  assert (A1' : handlers (setup (snd (buffer_log_to_paste s))) =
                handlers (setup s)) by (rewrite setup_done; auto).
  pose proof (W _ A1' A2 A3 A4 A5) as W2. unfold wp in W2.
  destruct W2 as (_ & _ & _ & _ & _ & _ & B7).
  rewrite (B7 Hne), (A7 Hne). rewrite !fmap_app. cbn.
  rewrite <- app_assoc. reflexivity.
Qed.

Lemma buffer_log_to_paste_keeps_buffer_witness :
  let s := run_calls [Log INFO "hello"] (initial lab_linux fs_good ∅ "") in
  buffer_text (snd (buffer_log_to_paste s)) = buffer_text s /\
  fst (buffer_log_to_paste s) = Ok (Some "https://paste/1").
Proof.
  intros s. split; [|reflexivity].
  apply (buffer_log_to_paste_keeps_buffer s); [|reflexivity].
  vm_compute. eexists. reflexivity.
Defined.

(** ** When no directory can be used *)

Lemma wp_write_testfile_fail p e (Q : res bool -> State -> Prop) s :
  OS.open_w (fs s) p = Raise e ->
  (forall s',
     fs s' = fs s -> platform s' = platform s -> _LOG_SETUP s' = true ->
     Q (Ok false) s') ->
  wp (write_testfile p) Q s.
Proof.
  intros Ho HQ. unfold write_testfile. wp_steps. st_simpl.
  rewrite Ho, (open_w_OSError _ _ _ Ho). wp_steps.
  apply HQ; st_simpl; reflexivity.
Qed.

Lemma wp_get_logdir_not_a_directory s d w data
    (Q : res string -> State -> Prop) :
  _LOG_DIR (platform s) = Some d ->
  fs s !! d = Some (OS.File w data) ->
  fs s !! (d +:+ "/fmld.testfile") = None ->
  (forall s',
     fs s' = fs s -> platform s' = platform s -> _LOG_SETUP s' = true ->
     Q (Ok (default_tempdir (platform s))) s') ->
  wp get_logdir Q s.
Proof.
  intros Hd Hfile Hmark HQ.
  destruct (LOG_DIR_cases _ _ Hd) as (_ & Hdn & _ & _).
  assert (Ho : OS.open_w (fs s) (d +:+ "/fmld.testfile") =
               Raise NotADirectoryError).
  { unfold OS.open_w, OS.parent_check. rewrite Hmark, Hdn, Hfile.
    reflexivity. }
  rewrite get_logdir_unfold. wp_step. wp_step. wp_step.
  unfold wp at 1. st_simpl. rewrite Hd. cbn [fst snd].
  wp_steps. st_simpl. unfold OS.isdir, OS.exists_. rewrite Hfile.
  cbn [negb]. wp_steps. st_simpl. unfold OS.exists_. rewrite Hfile.
  wp_steps. unfold get_logdir_probe. wp_steps.
  apply wp_get_tempdir. wp_steps.
  apply (wp_write_testfile_fail _ NotADirectoryError);
    [st_simpl; exact Ho|].
  intros s1 H1 H2 H3. cbn [negb]. wp_steps. st_simpl.
  apply HQ; st_simpl; auto.
  - rewrite H1. st_simpl. reflexivity.
  - rewrite H2. st_simpl. reflexivity.
Qed.


